(** * Cursor move operations (cursorMoveOperations.ts)

    A shallow embedding of [MoveOperations]: the functions that compute the
    next state of one text cursor for the directional commands, and the
    properties the design document states about them.

    Line numbers, columns, visible columns and repeat counts are JavaScript
    numbers that only ever hold integers here; they are modelled as [Z], so
    that the intermediate negative columns the code clips are representable.
    The source computes on doubles, which are exact on integers up to 2^53
    in magnitude: the model is the source's arithmetic on that range, and the
    properties that depend on a sum being exact bound the numbers they add. *)

From Stdlib Require Import ZArith Bool List Ascii String Lia.
From Equations Require Import Equations.
Import ListNotations.
Open Scope Z_scope.

(** ** Data model *)

(** Modelled from the spec: core/position.ts is not among the sources.
    A position is a 1-based (lineNumber, column) pair; [delta] yields the
    position the given number of lines and columns away ([undefined] for the
    line delta is the default 0). The column it yields can be out of range:
    [moveLeftWithoutVirtualSapce] clips it because it is "possibly negative". *)
Module Position.
Record t : Type := mk { lineNumber : Z; column : Z }.

Definition delta (p : t) (deltaLineNumber deltaColumn : Z) : t :=
  mk (lineNumber p + deltaLineNumber) (column p + deltaColumn).

Definition equals (a b : t) : bool :=
  (lineNumber a =? lineNumber b) && (column a =? column b).

Definition isBefore (a b : t) : bool :=
  (lineNumber a <? lineNumber b)
  || ((lineNumber a =? lineNumber b) && (column a <? column b)).

Definition isBeforeOrEqual (a b : t) : bool :=
  (lineNumber a <? lineNumber b)
  || ((lineNumber a =? lineNumber b) && (column a <=? column b)).
End Position.

(** Modelled from the spec: core/range.ts is not among the sources.
    A range is an ordered pair of positions; the constructor [make] swaps
    its two ends when they are given in the wrong order. *)
Module Range.
Record t : Type := mk
  { startLineNumber : Z; startColumn : Z; endLineNumber : Z; endColumn : Z }.

Definition make (sl sc el ec : Z) : t :=
  if (el <? sl) || ((sl =? el) && (ec <? sc))
  then mk el ec sl sc
  else mk sl sc el ec.

Definition isEmpty (r : t) : bool :=
  (startLineNumber r =? endLineNumber r) && (startColumn r =? endColumn r).

Definition getStartPosition (r : t) : Position.t :=
  Position.mk (startLineNumber r) (startColumn r).

Definition getEndPosition (r : t) : Position.t :=
  Position.mk (endLineNumber r) (endColumn r).
End Range.

(** Modelled from the spec: core/selection.ts is not among the sources.
    A selection is a range that remembers which of its ends is the selection
    start and which is the active position; its start and end are the two
    ends in document order. *)
Module Selection.
Record t : Type := mk
  { selectionStartLineNumber : Z; selectionStartColumn : Z;
    positionLineNumber : Z; positionColumn : Z }.

Definition fromPositions (s p : Position.t) : t :=
  mk (Position.lineNumber s) (Position.column s)
     (Position.lineNumber p) (Position.column p).

Definition getSelectionStart (s : t) : Position.t :=
  Position.mk (selectionStartLineNumber s) (selectionStartColumn s).

Definition getPosition (s : t) : Position.t :=
  Position.mk (positionLineNumber s) (positionColumn s).

Definition toRange (s : t) : Range.t :=
  Range.make (selectionStartLineNumber s) (selectionStartColumn s)
             (positionLineNumber s) (positionColumn s).

Definition startLineNumber (s : t) : Z := Range.startLineNumber (toRange s).
Definition startColumn (s : t) : Z := Range.startColumn (toRange s).
Definition endLineNumber (s : t) : Z := Range.endLineNumber (toRange s).
Definition endColumn (s : t) : Z := Range.endColumn (toRange s).

Definition getStartPosition (s : t) : Position.t :=
  Position.mk (startLineNumber s) (startColumn s).

Definition getEndPosition (s : t) : Position.t :=
  Position.mk (endLineNumber s) (endColumn s).

Definition isEmpty (s : t) : bool := Range.isEmpty (toRange s).
End Selection.

(** Modelled from the spec: the tag that tells how a selection start was
    created (cursorCommon.ts is not among the sources); the motions only ever
    build [Simple]. *)
Module SelectionStartKind.
Inductive t : Type := Simple | Word | Line.
End SelectionStartKind.

(** Modelled from the spec: model.ts is not among the sources. The bias
    handed to [normalizePosition]. *)
Module PositionAffinity.
Inductive t : Type :=
| Left | Right | None | LeftOfInjectedText | RightOfInjectedText.
End PositionAffinity.

(** The direction handed to the tab-stop scanner; the motions pass
    [Direction.Left] and [Direction.Right]. *)
Module Direction.
Inductive t : Type := Left | Right.
End Direction.

(** Modelled from the spec: base/common/uint.ts is not among the sources;
    [MAX_SAFE_SMALL_INTEGER] is the very large constant of the sticky
    end-of-line motion, [1 << 30]. *)
Module Constants.
Definition MAX_SAFE_SMALL_INTEGER : Z := 2 ^ 30.
End Constants.

(** Modelled from the spec: cursorCommon.ts is not among the sources.
    [SingleCursorState] has the fields of the data model, in the order of
    the constructor calls in [translateDown]; [selection] runs from the
    selection start to the active position; [hasSelection] tells whether the
    cursor owns a non-empty selection (one rule for both settings of the
    virtual-space flag it is given); [leftmostPosition] and
    [rightmostPosition] are the selection's edges in document order together
    with the leftover recorded for that edge; [virtualSpacePosition] adds the
    leftover visible columns to the column; [move] applies a computed
    position, extending the selection or collapsing it onto the position. *)
Module SingleCursorState.
Record t : Type := mk
  { selectionStart : Range.t;
    selectionStartKind : SelectionStartKind.t;
    selectionStartLeftoverVisibleColumns : Z;
    position : Position.t;
    leftoverVisibleColumns : Z;
    columnHint : option Z }.

Definition _computeSelection (selStart : Range.t) (p : Position.t) : Selection.t :=
  if Range.isEmpty selStart
     || negb (Position.isBeforeOrEqual p (Range.getStartPosition selStart))
  then Selection.fromPositions (Range.getStartPosition selStart) p
  else Selection.fromPositions (Range.getEndPosition selStart) p.

Definition selection (c : t) : Selection.t :=
  _computeSelection (selectionStart c) (position c).

Definition hasSelection (c : t) (virtualSpace : bool) : bool :=
  negb (Selection.isEmpty (selection c)).

(** One edge of the selection with the leftover recorded for it. *)
Record edge : Type := mkEdge
  { edgeLineNumber : Z; edgeColumn : Z; edgeLeftoverVisibleColumns : Z }.

Definition selectionStartEdge (c : t) : edge :=
  let s := selection c in
  mkEdge (Selection.selectionStartLineNumber s) (Selection.selectionStartColumn s)
         (selectionStartLeftoverVisibleColumns c).

Definition positionEdge (c : t) : edge :=
  mkEdge (Position.lineNumber (position c)) (Position.column (position c))
         (leftoverVisibleColumns c).

Definition leftmostPosition (c : t) : edge :=
  let s := selection c in
  if Position.isBeforeOrEqual (Selection.getSelectionStart s) (Selection.getPosition s)
  then selectionStartEdge c else positionEdge c.

Definition rightmostPosition (c : t) : edge :=
  let s := selection c in
  if Position.isBeforeOrEqual (Selection.getSelectionStart s) (Selection.getPosition s)
  then positionEdge c else selectionStartEdge c.

Definition virtualSpacePosition (c : t) : Position.t :=
  Position.delta (position c) 0 (leftoverVisibleColumns c).

Definition move (c : t) (inSelectionMode : bool) (lineNumber column : Z)
    (leftoverVisibleColumns' : Z) (columnHint' : option Z) : t :=
  if inSelectionMode then
    mk (selectionStart c) (selectionStartKind c)
       (selectionStartLeftoverVisibleColumns c)
       (Position.mk lineNumber column) leftoverVisibleColumns' columnHint'
  else
    mk (Range.make lineNumber column lineNumber column)
       SelectionStartKind.Simple leftoverVisibleColumns'
       (Position.mk lineNumber column) leftoverVisibleColumns' columnHint'.
End SingleCursorState.

(** The positional outcome of a vertical motion. *)
Module CursorPosition.
Record t : Type := mk
  { lineNumber : Z; column : Z; leftoverVisibleColumns : Z;
    columnHint : option Z }.
End CursorPosition.

(** ** Collaborators *)

(** Modelled from the spec: cursorCommon.ts is not among the sources.
    [ICursorSimpleModel] is the read-only line model, with the queries the
    motions call. *)
Record ICursorSimpleModel : Type := mkModel
  { getLineCount : Z;
    getLineContent : Z -> string;
    getLineMinColumn : Z -> Z;
    getLineMaxColumn : Z -> Z;
    getLineIndentColumn : Z -> Z;
    getLineFirstNonWhitespaceColumn : Z -> Z;
    normalizePosition : Position.t -> PositionAffinity.t -> Position.t }.

(** Modelled from the spec: cursorCommon.ts is not among the sources.
    [CursorConfiguration] with the fields the motions read. *)
Record CursorConfiguration : Type := mkConfig
  { tabSize : Z;
    indentSize : Z;
    stickyTabStops : bool;
    virtualSpace : bool;
    columnFromVisibleColumn : ICursorSimpleModel -> Z -> Z -> Z }.

(** Modelled from the spec: base/common/strings.ts is not among the sources.
    [prevCharLength] and [nextCharLength] give the number of UTF-16 units of
    the character ending, respectively starting, at an offset of a line. *)
Class Strings : Type :=
  { prevCharLength : string -> Z -> Z;
    nextCharLength : string -> Z -> Z }.

(** Modelled from the spec: cursorAtomicMoveOperations.ts is not among the
    sources. [atomicPosition] gives the next aligned offset in a direction,
    or -1 when there is no atomic stop. *)
Class AtomicTabMoveOperations : Type :=
  { atomicPosition : string -> Z -> Z -> Direction.t -> Z }.

(** Modelled from the spec: core/cursorColumns.ts is not among the sources.
    [visibleColumnFromColumn] is the tab-expanded visible column of a column
    of a line. *)
Class CursorColumns : Type :=
  { visibleColumnFromColumn : string -> Z -> Z -> Z }.

(** ** The move operations *)

Module MoveOperations.
Section Operations.
Context {strings : Strings} {tabs : AtomicTabMoveOperations}
        {cursorColumns : CursorColumns}.

Definition leftPosition (model : ICursorSimpleModel) (position : Position.t)
    : Position.t :=
  if getLineMinColumn model (Position.lineNumber position) <? Position.column position
  then Position.delta position 0
         (- prevCharLength (getLineContent model (Position.lineNumber position))
                           (Position.column position - 1))
  else if 1 <? Position.lineNumber position then
    let newLineNumber := Position.lineNumber position - 1 in
    Position.mk newLineNumber (getLineMaxColumn model newLineNumber)
  else position.

Definition leftPositionAtomicSoftTabs (model : ICursorSimpleModel)
    (position : Position.t) (tabSize : Z) : Position.t :=
  let fallback := leftPosition model position in
  if Position.column position <=? getLineIndentColumn model (Position.lineNumber position)
  then
    let minColumn := getLineMinColumn model (Position.lineNumber position) in
    let lineContent := getLineContent model (Position.lineNumber position) in
    let newPosition :=
      atomicPosition lineContent (Position.column position - 1) tabSize Direction.Left in
    if negb (newPosition =? -1) && (minColumn <=? newPosition + 1)
    then Position.mk (Position.lineNumber position) (newPosition + 1)
    else fallback
  else fallback.

Definition left (config : CursorConfiguration) (model : ICursorSimpleModel)
    (position : Position.t) : Position.t :=
  if stickyTabStops config
  then leftPositionAtomicSoftTabs model position (tabSize config)
  else leftPosition model position.

Definition clipRange (value min max : Z) : Z :=
  if value <? min then min
  else if max <? value then max
  else value.

Definition clipPositionColumn (position : Position.t) (model : ICursorSimpleModel)
    : Position.t :=
  Position.mk (Position.lineNumber position)
    (clipRange (Position.column position)
               (getLineMinColumn model (Position.lineNumber position))
               (getLineMaxColumn model (Position.lineNumber position))).

Definition moveLeftWithVirtualSpace (config : CursorConfiguration)
    (model : ICursorSimpleModel) (cursor : SingleCursorState.t)
    (inSelectionMode : bool) (noOfColumns : Z) : SingleCursorState.t :=
  let '(lineNumber, column, leftoverVisibleColumns) :=
    if SingleCursorState.hasSelection cursor true && negb inSelectionMode then
      let p := SingleCursorState.leftmostPosition cursor in
      (SingleCursorState.edgeLineNumber p, SingleCursorState.edgeColumn p,
       SingleCursorState.edgeLeftoverVisibleColumns p)
    else
      let pos := Position.delta (SingleCursorState.virtualSpacePosition cursor)
                                0 (- (noOfColumns - 1)) in
      let clippedPos := clipPositionColumn pos model in
      let leftoverVisibleColumns :=
        Z.max 0 (Position.column pos - Position.column clippedPos) in
      let normalizedPos := normalizePosition model clippedPos PositionAffinity.Left in
      let lineNumber := Position.lineNumber normalizedPos in
      let column := Position.column normalizedPos in
      if 0 <? leftoverVisibleColumns then
        (lineNumber, column, leftoverVisibleColumns - 1)
      else if getLineMinColumn model lineNumber <? column then
        let p := left config model normalizedPos in
        (Position.lineNumber p, Position.column p, leftoverVisibleColumns)
      else
        (lineNumber, column, leftoverVisibleColumns)
  in
  SingleCursorState.move cursor inSelectionMode lineNumber column
                         leftoverVisibleColumns None.

Definition moveLeftWithoutVirtualSapce (config : CursorConfiguration)
    (model : ICursorSimpleModel) (cursor : SingleCursorState.t)
    (inSelectionMode : bool) (noOfColumns : Z) : SingleCursorState.t :=
  let '(lineNumber, column) :=
    if SingleCursorState.hasSelection cursor false && negb inSelectionMode then
      (Selection.startLineNumber (SingleCursorState.selection cursor),
       Selection.startColumn (SingleCursorState.selection cursor))
    else
      let pos := Position.delta (SingleCursorState.position cursor)
                                0 (- (noOfColumns - 1)) in
      let normalizedPos :=
        normalizePosition model (clipPositionColumn pos model) PositionAffinity.Left in
      let p := left config model normalizedPos in
      (Position.lineNumber p, Position.column p)
  in
  SingleCursorState.move cursor inSelectionMode lineNumber column 0 None.

Definition moveLeft (config : CursorConfiguration) (model : ICursorSimpleModel)
    (cursor : SingleCursorState.t) (inSelectionMode : bool) (noOfColumns : Z)
    : SingleCursorState.t :=
  if virtualSpace config
  then moveLeftWithVirtualSpace config model cursor inSelectionMode noOfColumns
  else moveLeftWithoutVirtualSapce config model cursor inSelectionMode noOfColumns.

Definition rightPosition (model : ICursorSimpleModel) (lineNumber column : Z)
    : Position.t :=
  if column <? getLineMaxColumn model lineNumber then
    Position.mk lineNumber
      (column + nextCharLength (getLineContent model lineNumber) (column - 1))
  else if lineNumber <? getLineCount model then
    let lineNumber := lineNumber + 1 in
    Position.mk lineNumber (getLineMinColumn model lineNumber)
  else Position.mk lineNumber column.

Definition rightPositionAtomicSoftTabs (model : ICursorSimpleModel)
    (lineNumber column tabSize indentSize : Z) : Position.t :=
  let fallback := rightPosition model lineNumber column in
  if column <? getLineIndentColumn model lineNumber then
    let lineContent := getLineContent model lineNumber in
    let newPosition := atomicPosition lineContent (column - 1) tabSize Direction.Right in
    if negb (newPosition =? -1)
    then Position.mk lineNumber (newPosition + 1)
    else fallback
  else fallback.

Definition right (config : CursorConfiguration) (model : ICursorSimpleModel)
    (position : Position.t) : Position.t :=
  if stickyTabStops config
  then rightPositionAtomicSoftTabs model (Position.lineNumber position)
         (Position.column position) (tabSize config) (indentSize config)
  else rightPosition model (Position.lineNumber position) (Position.column position).

Definition moveRightWithVirtualSpace (config : CursorConfiguration)
    (model : ICursorSimpleModel) (cursor : SingleCursorState.t)
    (inSelectionMode : bool) (noOfColumns : Z) : SingleCursorState.t :=
  let '(lineNumber, column, leftoverVisibleColumns) :=
    if SingleCursorState.hasSelection cursor true && negb inSelectionMode then
      let r := SingleCursorState.rightmostPosition cursor in
      (SingleCursorState.edgeLineNumber r, SingleCursorState.edgeColumn r,
       SingleCursorState.edgeLeftoverVisibleColumns r)
    else
      let pos := Position.delta (SingleCursorState.virtualSpacePosition cursor)
                                0 (noOfColumns - 1) in
      let clippedPos := clipPositionColumn pos model in
      let normalizedPos := normalizePosition model clippedPos PositionAffinity.Right in
      if Position.column normalizedPos
         <? getLineMaxColumn model (Position.lineNumber normalizedPos)
      then
        let r := right config model normalizedPos in
        (Position.lineNumber r, Position.column r, 0)
      else
        (Position.lineNumber normalizedPos, Position.column normalizedPos,
         Z.max 1 (Position.column pos - Position.column clippedPos + 1))
  in
  SingleCursorState.move cursor inSelectionMode lineNumber column
                         leftoverVisibleColumns None.

Definition moveRightWithoutVirtualSpace (config : CursorConfiguration)
    (model : ICursorSimpleModel) (cursor : SingleCursorState.t)
    (inSelectionMode : bool) (noOfColumns : Z) : SingleCursorState.t :=
  let '(lineNumber, column) :=
    if SingleCursorState.hasSelection cursor false && negb inSelectionMode then
      (Selection.endLineNumber (SingleCursorState.selection cursor),
       Selection.endColumn (SingleCursorState.selection cursor))
    else
      let pos := Position.delta (SingleCursorState.position cursor)
                                0 (noOfColumns - 1) in
      let normalizedPos :=
        normalizePosition model (clipPositionColumn pos model) PositionAffinity.Right in
      let r := right config model normalizedPos in
      (Position.lineNumber r, Position.column r)
  in
  SingleCursorState.move cursor inSelectionMode lineNumber column 0 None.

Definition moveRight (config : CursorConfiguration) (model : ICursorSimpleModel)
    (cursor : SingleCursorState.t) (inSelectionMode : bool) (noOfColumns : Z)
    : SingleCursorState.t :=
  if virtualSpace config
  then moveRightWithVirtualSpace config model cursor inSelectionMode noOfColumns
  else moveRightWithoutVirtualSpace config model cursor inSelectionMode noOfColumns.

Definition vertical (config : CursorConfiguration) (model : ICursorSimpleModel)
    (lineNumber column leftoverVisibleColumns : Z) (columnHint : option Z)
    (newLineNumber : Z) (allowMoveOnEdgeLine : bool)
    (normalizationAffinity : option PositionAffinity.t) : CursorPosition.t :=
  let virtualSpace := virtualSpace config in
  let '(currentVisibleColumn, columnHint) :=
    match columnHint with
    | Some hint => (hint, columnHint)
    | None =>
        let currentVisibleColumn :=
          visibleColumnFromColumn (getLineContent model lineNumber) column
                                  (tabSize config)
          + leftoverVisibleColumns in
        (currentVisibleColumn, Some currentVisibleColumn)
    end in
  let lineCount := getLineCount model in
  let lineNumber := newLineNumber in
  let '(lineNumber, column, leftoverVisibleColumns, columnHint) :=
    if virtualSpace then
      let lineNumber := Z.max 1 (Z.min lineCount lineNumber) in
      (lineNumber, columnFromVisibleColumn config model lineNumber currentVisibleColumn,
       leftoverVisibleColumns, columnHint)
    else
      let wasOnFirstPosition := (lineNumber =? 1) && (column =? 1) in
      let wasOnLastPosition :=
        (lineNumber =? lineCount) && (column =? getLineMaxColumn model lineNumber) in
      let wasAtEdgePosition :=
        if newLineNumber <? lineNumber then wasOnFirstPosition else wasOnLastPosition in
      let '(lineNumber, column) :=
        if lineNumber <? 1 then
          let lineNumber := 1 in
          if allowMoveOnEdgeLine
          then (lineNumber, getLineMinColumn model lineNumber)
          else (lineNumber, Z.min (getLineMaxColumn model lineNumber) column)
        else if lineCount <? lineNumber then
          let lineNumber := lineCount in
          if allowMoveOnEdgeLine
          then (lineNumber, getLineMaxColumn model lineNumber)
          else (lineNumber, Z.min (getLineMaxColumn model lineNumber) column)
        else
          (lineNumber,
           columnFromVisibleColumn config model lineNumber currentVisibleColumn)
      in
      if wasAtEdgePosition
      then (lineNumber, column, 0, None)
      else (lineNumber, column, leftoverVisibleColumns, columnHint)
  in
  let '(lineNumber, column) :=
    match normalizationAffinity with
    | Some affinity =>
        let newPosition :=
          normalizePosition model (Position.mk lineNumber column) affinity in
        (Position.lineNumber newPosition, Position.column newPosition)
    | None => (lineNumber, column)
    end in
  let leftoverVisibleColumns :=
    match columnHint with
    | Some _ =>
        currentVisibleColumn
        - visibleColumnFromColumn (getLineContent model lineNumber) column
                                  (tabSize config)
    | None => leftoverVisibleColumns
    end in
  CursorPosition.mk lineNumber column leftoverVisibleColumns columnHint.

Definition down (config : CursorConfiguration) (model : ICursorSimpleModel)
    (lineNumber column leftoverVisibleColumns : Z) (columnHint : option Z)
    (count : Z) (allowMoveOnLastLine : bool) : CursorPosition.t :=
  vertical config model lineNumber column leftoverVisibleColumns columnHint
           (lineNumber + count) allowMoveOnLastLine
           (Some PositionAffinity.RightOfInjectedText).

Definition up (config : CursorConfiguration) (model : ICursorSimpleModel)
    (lineNumber column leftoverVisibleColumns : Z) (columnHint : option Z)
    (count : Z) (allowMoveOnFirstLine : bool) : CursorPosition.t :=
  vertical config model lineNumber column leftoverVisibleColumns columnHint
           (lineNumber - count) allowMoveOnFirstLine
           (Some PositionAffinity.LeftOfInjectedText).

(** The anchor of a vertical motion: the edge of the selection it leaves
    (with no column hint), or the cursor's own position and hint. *)
Record anchor : Type := mkAnchor
  { anchorLineNumber : Z; anchorColumn : Z;
    anchorLeftoverVisibleColumns : Z; anchorColumnHint : option Z }.

Definition anchorOfEdge (e : SingleCursorState.edge) : anchor :=
  mkAnchor (SingleCursorState.edgeLineNumber e) (SingleCursorState.edgeColumn e)
           (SingleCursorState.edgeLeftoverVisibleColumns e) None.

Definition anchorOfCursor (cursor : SingleCursorState.t) : anchor :=
  mkAnchor (Position.lineNumber (SingleCursorState.position cursor))
           (Position.column (SingleCursorState.position cursor))
           (SingleCursorState.leftoverVisibleColumns cursor)
           (SingleCursorState.columnHint cursor).

Definition moveDownAnchor (config : CursorConfiguration)
    (cursor : SingleCursorState.t) (inSelectionMode : bool) : anchor :=
  if SingleCursorState.hasSelection cursor (virtualSpace config)
     && negb inSelectionMode
  then anchorOfEdge (SingleCursorState.rightmostPosition cursor)
  else anchorOfCursor cursor.

Definition moveUpAnchor (config : CursorConfiguration)
    (cursor : SingleCursorState.t) (inSelectionMode : bool) : anchor :=
  if SingleCursorState.hasSelection cursor (virtualSpace config)
     && negb inSelectionMode
  then anchorOfEdge (SingleCursorState.leftmostPosition cursor)
  else anchorOfCursor cursor.

(** The [i]-th attempt of the loop of [moveDown]. *)
Definition moveDownAttempt (config : CursorConfiguration)
    (model : ICursorSimpleModel) (a : anchor) (linesCount i : Z)
    : CursorPosition.t :=
  down config model (anchorLineNumber a + i) (anchorColumn a)
       (anchorLeftoverVisibleColumns a) (anchorColumnHint a) linesCount true.

(** Whether the loop of [moveDown] leaves through its [break]. *)
Definition moveDownProgress (model : ICursorSimpleModel) (a : anchor)
    (r : CursorPosition.t) : bool :=
  let np := normalizePosition model
              (Position.mk (CursorPosition.lineNumber r) (CursorPosition.column r))
              PositionAffinity.None in
  anchorLineNumber a <? Position.lineNumber np.

(** The do-while loop of [moveDown], entered with counter [i]. The loop is
    run on [fuel] iterations and yields [None] when they do not suffice,
    so that its termination is a theorem and not a property of the model. *)
Fixpoint moveDownLoop (fuel : nat) (config : CursorConfiguration)
    (model : ICursorSimpleModel) (a : anchor) (linesCount i : Z)
    : option CursorPosition.t :=
  match fuel with
  | O => None
  | S fuel' =>
      let r := moveDownAttempt config model a linesCount i in
      if moveDownProgress model a r then Some r
      else
        let below10 := i <? 10 in
        let i := i + 1 in
        if below10 && (anchorLineNumber a + i <? getLineCount model)
        then moveDownLoop fuel' config model a linesCount i
        else Some r
  end.

Definition moveDown (fuel : nat) (config : CursorConfiguration)
    (model : ICursorSimpleModel) (cursor : SingleCursorState.t)
    (inSelectionMode : bool) (linesCount : Z) : option SingleCursorState.t :=
  let a := moveDownAnchor config cursor inSelectionMode in
  match moveDownLoop fuel config model a linesCount 0 with
  | Some r =>
      Some (SingleCursorState.move cursor inSelectionMode
              (CursorPosition.lineNumber r) (CursorPosition.column r)
              (CursorPosition.leftoverVisibleColumns r) (CursorPosition.columnHint r))
  | None => None
  end.


Definition moveUp (config : CursorConfiguration) (model : ICursorSimpleModel)
    (cursor : SingleCursorState.t) (inSelectionMode : bool) (linesCount : Z)
    : SingleCursorState.t :=
  let a := moveUpAnchor config cursor inSelectionMode in
  let r := up config model (anchorLineNumber a) (anchorColumn a)
              (anchorLeftoverVisibleColumns a) (anchorColumnHint a) linesCount true in
  SingleCursorState.move cursor inSelectionMode
    (CursorPosition.lineNumber r) (CursorPosition.column r)
    (CursorPosition.leftoverVisibleColumns r) (CursorPosition.columnHint r).


End Operations.

Definition _isBlankLine (model : ICursorSimpleModel) (lineNumber : Z) : bool :=
  if getLineFirstNonWhitespaceColumn model lineNumber =? 0 then true else false.

Definition inspect {A : Type} (a : A) : {b : A | a = b} := exist _ a eq_refl.

(** [while (lineNumber > 1 && _isBlankLine(lineNumber) == blank) lineNumber--]:
    the two loops of [moveToPrevBlankLine], for [blank] true and false. *)
Equations? scanUp (model : ICursorSimpleModel) (blank : bool) (lineNumber : Z)
    : Z by wf (Z.to_nat lineNumber) lt :=
  scanUp model blank lineNumber
    with inspect ((1 <? lineNumber) && Bool.eqb (_isBlankLine model lineNumber) blank) := {
    | exist _ true _ => scanUp model blank (lineNumber - 1);
    | exist _ false _ => lineNumber }.
Proof.
  apply andb_prop in e. destruct e as [e _]. apply Z.ltb_lt in e. lia.
Qed.

(** [while (lineNumber < lineCount && _isBlankLine(lineNumber) == blank) lineNumber++]:
    the two loops of [moveToNextBlankLine]. *)
Equations? scanDown (model : ICursorSimpleModel) (blank : bool)
    (lineCount lineNumber : Z) : Z by wf (Z.to_nat (lineCount - lineNumber)) lt :=
  scanDown model blank lineCount lineNumber
    with inspect ((lineNumber <? lineCount)
                  && Bool.eqb (_isBlankLine model lineNumber) blank) := {
    | exist _ true _ => scanDown model blank lineCount (lineNumber + 1);
    | exist _ false _ => lineNumber }.
Proof.
  apply andb_prop in e. destruct e as [e _]. apply Z.ltb_lt in e. lia.
Qed.

Definition moveToPrevBlankLine (config : CursorConfiguration)
    (model : ICursorSimpleModel) (cursor : SingleCursorState.t)
    (inSelectionMode : bool) : SingleCursorState.t :=
  let lineNumber := Position.lineNumber (SingleCursorState.position cursor) in
  let lineNumber := scanUp model true lineNumber in
  let lineNumber := scanUp model false lineNumber in
  SingleCursorState.move cursor inSelectionMode lineNumber
                         (getLineMinColumn model lineNumber) 0 None.

Definition moveToNextBlankLine (config : CursorConfiguration)
    (model : ICursorSimpleModel) (cursor : SingleCursorState.t)
    (inSelectionMode : bool) : SingleCursorState.t :=
  let lineCount := getLineCount model in
  let lineNumber := Position.lineNumber (SingleCursorState.position cursor) in
  let lineNumber := scanDown model true lineCount lineNumber in
  let lineNumber := scanDown model false lineCount lineNumber in
  SingleCursorState.move cursor inSelectionMode lineNumber
                         (getLineMinColumn model lineNumber) 0 None.

Definition moveToBeginningOfLine (config : CursorConfiguration)
    (model : ICursorSimpleModel) (cursor : SingleCursorState.t)
    (inSelectionMode : bool) : SingleCursorState.t :=
  let lineNumber := Position.lineNumber (SingleCursorState.position cursor) in
  let minColumn := getLineMinColumn model lineNumber in
  let firstNonBlankColumn :=
    if getLineFirstNonWhitespaceColumn model lineNumber =? 0
    then minColumn
    else getLineFirstNonWhitespaceColumn model lineNumber in
  let relevantColumnNumber := Position.column (SingleCursorState.position cursor) in
  let column :=
    if relevantColumnNumber =? firstNonBlankColumn
    then minColumn
    else firstNonBlankColumn in
  SingleCursorState.move cursor inSelectionMode lineNumber column 0 None.

Definition moveToEndOfLine (config : CursorConfiguration)
    (model : ICursorSimpleModel) (cursor : SingleCursorState.t)
    (inSelectionMode : bool) (sticky : bool) : SingleCursorState.t :=
  let lineNumber := Position.lineNumber (SingleCursorState.position cursor) in
  let maxColumn := getLineMaxColumn model lineNumber in
  SingleCursorState.move cursor inSelectionMode lineNumber maxColumn
    (if sticky then Constants.MAX_SAFE_SMALL_INTEGER - maxColumn else 0) None.

Definition moveToBeginningOfBuffer (config : CursorConfiguration)
    (model : ICursorSimpleModel) (cursor : SingleCursorState.t)
    (inSelectionMode : bool) : SingleCursorState.t :=
  SingleCursorState.move cursor inSelectionMode 1 1 0 None.

Definition moveToEndOfBuffer (config : CursorConfiguration)
    (model : ICursorSimpleModel) (cursor : SingleCursorState.t)
    (inSelectionMode : bool) : SingleCursorState.t :=
  let lastLineNumber := getLineCount model in
  let lastColumn := getLineMaxColumn model lastLineNumber in
  SingleCursorState.move cursor inSelectionMode lastLineNumber lastColumn 0 None.

End MoveOperations.

(** ** The earlier revision of the class

    The source holds a second copy of [MoveOperations], from before the
    horizontal motions were split by the virtual-space flag. Its [moveLeft],
    [moveRight], [moveDown] and [moveUp] differ from the ones above; the rest
    of the class is the same text, and is shared here. [hasSelection] takes
    no flag in that revision; it is the test made without virtual space. *)

Module EarlierMoveOperations.
Section Operations.
Context {strings : Strings} {tabs : AtomicTabMoveOperations}
        {cursorColumns : CursorColumns}.

Definition moveLeft (config : CursorConfiguration) (model : ICursorSimpleModel)
    (cursor : SingleCursorState.t) (inSelectionMode : bool) (noOfColumns : Z)
    : SingleCursorState.t :=
  let virtualSpace := virtualSpace config in
  if SingleCursorState.hasSelection cursor false && negb inSelectionMode then
    let lineNumber := Selection.startLineNumber (SingleCursorState.selection cursor) in
    let column := Selection.startColumn (SingleCursorState.selection cursor) in
    let leftoverVisibleColumns :=
      if virtualSpace
      then SingleCursorState.selectionStartLeftoverVisibleColumns cursor
      else 0 in
    SingleCursorState.mk (Range.make lineNumber column lineNumber column)
      SelectionStartKind.Simple leftoverVisibleColumns
      (Position.mk lineNumber column) leftoverVisibleColumns None
  else
    let leftoverVisibleColumns :=
      if virtualSpace then SingleCursorState.leftoverVisibleColumns cursor else 0 in
    let pos := Position.delta (SingleCursorState.position cursor)
                              0 (- (noOfColumns - 1) + leftoverVisibleColumns) in
    let normalizedPos :=
      normalizePosition model (MoveOperations.clipPositionColumn pos model)
                        PositionAffinity.Left in
    let lineNumber := Position.lineNumber normalizedPos in
    let column := Position.column normalizedPos in
    let step :=
      let p := MoveOperations.left config model normalizedPos in
      SingleCursorState.move cursor inSelectionMode
        (Position.lineNumber p) (Position.column p) 0 None in
    if virtualSpace then
      let newLeftoverVisibleColumns :=
        (Position.column pos - Position.column normalizedPos) - 1 in
      if 0 <=? newLeftoverVisibleColumns then
        SingleCursorState.mk (Range.make lineNumber column lineNumber column)
          SelectionStartKind.Simple newLeftoverVisibleColumns
          normalizedPos newLeftoverVisibleColumns None
      else if column <=? getLineMinColumn model lineNumber then
        SingleCursorState.mk (Range.make lineNumber column lineNumber column)
          SelectionStartKind.Simple 0 normalizedPos 0 None
      else step
    else step.

Definition moveRight (config : CursorConfiguration) (model : ICursorSimpleModel)
    (cursor : SingleCursorState.t) (inSelectionMode : bool) (noOfColumns : Z)
    : SingleCursorState.t :=
  let virtualSpace := virtualSpace config in
  let leftoverVisibleColumns :=
    if virtualSpace then SingleCursorState.leftoverVisibleColumns cursor else 0 in
  if SingleCursorState.hasSelection cursor false && negb inSelectionMode then
    let lineNumber := Selection.endLineNumber (SingleCursorState.selection cursor) in
    let column := Selection.endColumn (SingleCursorState.selection cursor) in
    SingleCursorState.mk (Range.make lineNumber column lineNumber column)
      SelectionStartKind.Simple leftoverVisibleColumns
      (Position.mk lineNumber column) leftoverVisibleColumns None
  else
    let pos := Position.delta (SingleCursorState.position cursor)
                              0 ((noOfColumns - 1) + leftoverVisibleColumns) in
    let normalizedPos :=
      normalizePosition model (MoveOperations.clipPositionColumn pos model)
                        PositionAffinity.Right in
    let lineNumber := Position.lineNumber normalizedPos in
    let column := Position.column normalizedPos in
    let step :=
      let r := MoveOperations.right config model normalizedPos in
      SingleCursorState.move cursor inSelectionMode
        (Position.lineNumber r) (Position.column r) 0 None in
    if virtualSpace then
      if getLineMaxColumn model lineNumber <=? column then
        let newLeftoverVisibleColumns :=
          Z.max 0 (Position.column pos - Position.column normalizedPos) + 1 in
        SingleCursorState.mk (Range.make lineNumber column lineNumber column)
          SelectionStartKind.Simple newLeftoverVisibleColumns
          normalizedPos newLeftoverVisibleColumns None
      else step
    else step.

(** The anchor of the vertical motions of that revision: the end, or the
    start, of the selection it leaves, with the cursor's own leftover and
    hint in either case. *)
Definition moveDownAnchor (cursor : SingleCursorState.t) (inSelectionMode : bool)
    : MoveOperations.anchor :=
  if SingleCursorState.hasSelection cursor false && negb inSelectionMode
  then MoveOperations.mkAnchor
         (Selection.endLineNumber (SingleCursorState.selection cursor))
         (Selection.endColumn (SingleCursorState.selection cursor))
         (SingleCursorState.leftoverVisibleColumns cursor)
         (SingleCursorState.columnHint cursor)
  else MoveOperations.anchorOfCursor cursor.

Definition moveUpAnchor (cursor : SingleCursorState.t) (inSelectionMode : bool)
    : MoveOperations.anchor :=
  if SingleCursorState.hasSelection cursor false && negb inSelectionMode
  then MoveOperations.mkAnchor
         (Selection.startLineNumber (SingleCursorState.selection cursor))
         (Selection.startColumn (SingleCursorState.selection cursor))
         (SingleCursorState.leftoverVisibleColumns cursor)
         (SingleCursorState.columnHint cursor)
  else MoveOperations.anchorOfCursor cursor.

Definition moveDown (fuel : nat) (config : CursorConfiguration)
    (model : ICursorSimpleModel) (cursor : SingleCursorState.t)
    (inSelectionMode : bool) (linesCount : Z) : option SingleCursorState.t :=
  let a := moveDownAnchor cursor inSelectionMode in
  match MoveOperations.moveDownLoop fuel config model a linesCount 0 with
  | Some r =>
      Some (SingleCursorState.move cursor inSelectionMode
              (CursorPosition.lineNumber r) (CursorPosition.column r)
              (CursorPosition.leftoverVisibleColumns r) (CursorPosition.columnHint r))
  | None => None
  end.

Definition moveUp (config : CursorConfiguration) (model : ICursorSimpleModel)
    (cursor : SingleCursorState.t) (inSelectionMode : bool) (linesCount : Z)
    : SingleCursorState.t :=
  let a := moveUpAnchor cursor inSelectionMode in
  let r := MoveOperations.up config model
             (MoveOperations.anchorLineNumber a) (MoveOperations.anchorColumn a)
             (MoveOperations.anchorLeftoverVisibleColumns a)
             (MoveOperations.anchorColumnHint a) linesCount true in
  SingleCursorState.move cursor inSelectionMode
    (CursorPosition.lineNumber r) (CursorPosition.column r)
    (CursorPosition.leftoverVisibleColumns r) (CursorPosition.columnHint r).

End Operations.
End EarlierMoveOperations.

(** ** A line model over plain lines

    The instances the examples run on: a buffer given as the list of its
    lines, in which every character is one UTF-16 unit wide and one visible
    column wide, with no injected text. *)

Module Sample.
Definition isBlankChar (c : Ascii.ascii) : bool :=
  (Ascii.eqb c " " || Ascii.eqb c (Ascii.ascii_of_nat 9))%char.

Fixpoint indentOfLine (s : string) : Z :=
  match s with
  | String c rest => if isBlankChar c then 1 + indentOfLine rest else 0
  | EmptyString => 0
  end.

Definition lineLength (s : string) : Z := Z.of_nat (String.length s).

Definition firstNonWhitespaceColumn (s : string) : Z :=
  let i := indentOfLine s in
  if i =? lineLength s then 0 else i + 1.

Definition lineAt (lines : list string) (lineNumber : Z) : string :=
  nth (Z.to_nat (lineNumber - 1)) lines EmptyString.

Definition textModel (lines : list string) : ICursorSimpleModel :=
  mkModel (Z.of_nat (List.length lines))
          (lineAt lines)
          (fun _ => 1)
          (fun l => lineLength (lineAt lines l) + 1)
          (fun l => indentOfLine (lineAt lines l) + 1)
          (fun l => firstNonWhitespaceColumn (lineAt lines l))
          (fun p _ => p).

(** The same model with another normalization, as a view model with
    injected or hidden text has. *)
Definition withNormalizePosition (model : ICursorSimpleModel)
    (f : Position.t -> PositionAffinity.t -> Position.t) : ICursorSimpleModel :=
  mkModel (getLineCount model) (getLineContent model) (getLineMinColumn model)
          (getLineMaxColumn model) (getLineIndentColumn model)
          (getLineFirstNonWhitespaceColumn model) f.

Definition unitStrings : Strings :=
  {| prevCharLength := fun _ _ => 1; nextCharLength := fun _ _ => 1 |}.

(** The character lengths of a line made of surrogate pairs only: every
    character is two UTF-16 units wide. *)
Definition pairStrings : Strings :=
  {| prevCharLength := fun _ _ => 2; nextCharLength := fun _ _ => 2 |}.

(** A scanner for lines indented with spaces: the stops are the multiples
    of the tab size inside the leading whitespace. *)
Definition spaceStops : AtomicTabMoveOperations :=
  {| atomicPosition := fun lineContent position tabSize direction =>
       let indent := indentOfLine lineContent in
       if indent <? position then -1
       else match direction with
            | Direction.Left =>
                if position <=? 0 then -1
                else ((position - 1) / tabSize) * tabSize
            | Direction.Right =>
                let stop := (position / tabSize + 1) * tabSize in
                if stop <=? indent then stop else -1
            end |}.

Definition plainColumns : CursorColumns :=
  {| visibleColumnFromColumn := fun _ column _ => column - 1 |}.

Definition columnFromVisibleColumn (model : ICursorSimpleModel)
    (lineNumber visibleColumn : Z) : Z :=
  Z.max (getLineMinColumn model lineNumber)
        (Z.min (getLineMaxColumn model lineNumber) (visibleColumn + 1)).

Definition config (stickyTabStops virtualSpace : bool) : CursorConfiguration :=
  mkConfig 4 4 stickyTabStops virtualSpace columnFromVisibleColumn.

(** A cursor with no selection, and a cursor whose selection runs from one
    position to another. *)
Definition cursorAt (lineNumber column : Z) : SingleCursorState.t :=
  SingleCursorState.mk (Range.make lineNumber column lineNumber column)
    SelectionStartKind.Simple 0 (Position.mk lineNumber column) 0 None.

Definition cursorSelecting (startLine startColumn lineNumber column : Z)
    : SingleCursorState.t :=
  SingleCursorState.mk (Range.make startLine startColumn startLine startColumn)
    SelectionStartKind.Simple 0 (Position.mk lineNumber column) 0 None.


(** Twenty lines whose content is hidden: with affinity None every position
    normalizes back to the start of line 1. *)
Definition foldedModel : ICursorSimpleModel :=
  withNormalizePosition (textModel (List.repeat "x"%string 20))
    (fun p affinity =>
       match affinity with
       | PositionAffinity.None => Position.mk 1 1
       | _ => p
       end).
End Sample.

(** ** Well-formed inputs

    What the properties below assume of a model without injected text and
    of the character-length queries. *)

Section WellFormed.
Context {strings : Strings}.

(** A position inside the buffer, with its column inside its line. *)
Definition validPosition (model : ICursorSimpleModel) (p : Position.t) : Prop :=
  1 <= Position.lineNumber p <= getLineCount model
  /\ getLineMinColumn model (Position.lineNumber p) <= Position.column p
     <= getLineMaxColumn model (Position.lineNumber p).

Definition atBufferEnd (model : ICursorSimpleModel) (p : Position.t) : Prop :=
  Position.lineNumber p = getLineCount model
  /\ Position.column p = getLineMaxColumn model (Position.lineNumber p).

Definition atBufferStart (model : ICursorSimpleModel) (p : Position.t) : Prop :=
  Position.lineNumber p = 1
  /\ Position.column p = getLineMinColumn model (Position.lineNumber p).

(** Normalization leaves a position whose column is inside its line where
    it is: the model has no injected text. *)
Definition normalizesInPlace (model : ICursorSimpleModel) : Prop :=
  forall (q : Position.t) (affinity : PositionAffinity.t),
    getLineMinColumn model (Position.lineNumber q) <= Position.column q
      <= getLineMaxColumn model (Position.lineNumber q) ->
    normalizePosition model q affinity = q.

Definition linesWellFormed (model : ICursorSimpleModel) : Prop :=
  forall l : Z,
    1 <= l <= getLineCount model -> getLineMinColumn model l <= getLineMaxColumn model l.

(** The character-length queries agree at a position: when its column is
    before the end of its line, the character starting there has a positive
    length, ends inside the line, and is the character that [prevCharLength]
    finds ending there. This is asked at a character boundary, where the
    cursor is, and at no other column. *)
Definition charLengthsAgreeAt (model : ICursorSimpleModel) (p : Position.t) : Prop :=
  Position.column p < getLineMaxColumn model (Position.lineNumber p) ->
  let content := getLineContent model (Position.lineNumber p) in
  let n := nextCharLength content (Position.column p - 1) in
  0 < n
  /\ Position.column p + n <= getLineMaxColumn model (Position.lineNumber p)
  /\ prevCharLength content (Position.column p + n - 1) = n.

(** A number of small magnitude, at most [MAX_SAFE_SMALL_INTEGER]: sums and
    differences of a few such numbers stay far below 2^53, where the
    arithmetic of the source, on doubles, is exact. *)
Definition smallInteger (z : Z) : Prop :=
  - Constants.MAX_SAFE_SMALL_INTEGER <= z <= Constants.MAX_SAFE_SMALL_INTEGER.

(** Normalization moves no position at all: the model has no injected or
    hidden text. *)
Definition noInjectedText (model : ICursorSimpleModel) : Prop :=
  forall (q : Position.t) (affinity : PositionAffinity.t),
    normalizePosition model q affinity = q.


End WellFormed.

(** ** Properties *)

(** Case analysis on every test of the goal, and on every comparison of
    the goal with the arithmetic facts it brings. *)
Ltac destruct_tests :=
  repeat match goal with
         | |- context [if ?b then _ else _] => destruct b
         end.

Ltac destruct_comparisons :=
  repeat match goal with
         | |- context [?a <? ?b] => destruct (Z.ltb_spec a b); try lia
         end.

Section Properties.
Context {strings : Strings} {tabs : AtomicTabMoveOperations}
        {cursorColumns : CursorColumns}.

Lemma Position_eta (p : Position.t) :
  Position.mk (Position.lineNumber p) (Position.column p) = p.
Proof. destruct p; reflexivity. Qed.

Lemma Position_delta_0 (p : Position.t) : Position.delta p 0 0 = p.
Proof. destruct p. unfold Position.delta. cbn. f_equal; lia. Qed.

Lemma move_position c inSel l col lo h :
  SingleCursorState.position (SingleCursorState.move c inSel l col lo h)
  = Position.mk l col.
Proof. unfold SingleCursorState.move. destruct inSel; reflexivity. Qed.

Lemma move_leftoverVisibleColumns c inSel l col lo h :
  SingleCursorState.leftoverVisibleColumns (SingleCursorState.move c inSel l col lo h)
  = lo.
Proof. unfold SingleCursorState.move. destruct inSel; reflexivity. Qed.

Lemma move_columnHint c inSel l col lo h :
  SingleCursorState.columnHint (SingleCursorState.move c inSel l col lo h) = h.
Proof. unfold SingleCursorState.move. destruct inSel; reflexivity. Qed.


(** C1. With virtual space disabled, a cursor that owns a non-empty
    selection and a call that does not extend it: [moveLeft] returns a
    state at the selection's start position and [moveRight] a state at the
    selection's end position, both with leftoverVisibleColumns 0 and a null
    columnHint. *)
Theorem moveLeft_moveRight_collapse_selection
    (config : CursorConfiguration) (model : ICursorSimpleModel)
    (cursor : SingleCursorState.t) (noOfColumns : Z)
    (Hvirtual : virtualSpace config = false)
    (Hselection : Selection.isEmpty (SingleCursorState.selection cursor) = false) :
  let l := MoveOperations.moveLeft config model cursor false noOfColumns in
  let r := MoveOperations.moveRight config model cursor false noOfColumns in
  SingleCursorState.position l
    = Selection.getStartPosition (SingleCursorState.selection cursor)
  /\ SingleCursorState.leftoverVisibleColumns l = 0
  /\ SingleCursorState.columnHint l = None
  /\ SingleCursorState.position r
    = Selection.getEndPosition (SingleCursorState.selection cursor)
  /\ SingleCursorState.leftoverVisibleColumns r = 0
  /\ SingleCursorState.columnHint r = None.
Proof.
  cbv zeta.
  unfold MoveOperations.moveLeft, MoveOperations.moveRight.
  rewrite Hvirtual.
  unfold MoveOperations.moveLeftWithoutVirtualSapce,
         MoveOperations.moveRightWithoutVirtualSpace,
         SingleCursorState.hasSelection.
  rewrite Hselection. cbn [negb andb].
  rewrite !move_position, !move_leftoverVisibleColumns, !move_columnHint.
  repeat split.
Qed.

(** C5. The plain step. Leftwards from a column past the line's minimum
    column it goes back by the length [prevCharLength] reports for the
    character ending there; from the minimum column it lands on the maximum
    column of the previous line; on line 1 it returns the position
    unchanged. Rightwards from a column before the line's maximum column it
    advances by the length [nextCharLength] reports for the character
    starting there; from the maximum column it lands on the minimum column
    of the next line; on the last line it returns the position unchanged. *)
Theorem leftPosition_rightPosition_plain_step
    (model : ICursorSimpleModel) (lineNumber column : Z) :
  let position := Position.mk lineNumber column in
  (getLineMinColumn model lineNumber < column ->
     MoveOperations.leftPosition model position
     = Position.mk lineNumber
         (column - prevCharLength (getLineContent model lineNumber) (column - 1)))
  /\ (column <= getLineMinColumn model lineNumber -> 1 < lineNumber ->
     MoveOperations.leftPosition model position
     = Position.mk (lineNumber - 1) (getLineMaxColumn model (lineNumber - 1)))
  /\ (column <= getLineMinColumn model lineNumber -> lineNumber <= 1 ->
     MoveOperations.leftPosition model position = position)
  /\ (column < getLineMaxColumn model lineNumber ->
     MoveOperations.rightPosition model lineNumber column
     = Position.mk lineNumber
         (column + nextCharLength (getLineContent model lineNumber) (column - 1)))
  /\ (getLineMaxColumn model lineNumber <= column ->
     lineNumber < getLineCount model ->
     MoveOperations.rightPosition model lineNumber column
     = Position.mk (lineNumber + 1) (getLineMinColumn model (lineNumber + 1)))
  /\ (getLineMaxColumn model lineNumber <= column ->
     getLineCount model <= lineNumber ->
     MoveOperations.rightPosition model lineNumber column = position).
Proof.
  cbv zeta.
  unfold MoveOperations.leftPosition, MoveOperations.rightPosition, Position.delta.
  cbn [Position.lineNumber Position.column].
  repeat split; intros;
    destruct_comparisons;
    try reflexivity.
  f_equal; lia.
Qed.

(** C8. The atomic soft-tab step is taken only when [stickyTabStops] is set
    and the column lies in the indentation (at most the indent column going
    left, before it going right); it then lands on the stop that
    [atomicPosition] returns. Without the flag, outside the indentation,
    when the scanner returns -1, or, leftwards, when the stop lies before
    the line's minimum column, the step is the plain one. *)
Theorem left_right_atomic_soft_tabs
    (config : CursorConfiguration) (model : ICursorSimpleModel)
    (position : Position.t) :
  let lineNumber := Position.lineNumber position in
  let column := Position.column position in
  let lineContent := getLineContent model lineNumber in
  let stopLeft := atomicPosition lineContent (column - 1) (tabSize config) Direction.Left in
  let stopRight := atomicPosition lineContent (column - 1) (tabSize config) Direction.Right in
  (stickyTabStops config = true ->
     column <= getLineIndentColumn model lineNumber ->
     stopLeft <> -1 -> getLineMinColumn model lineNumber <= stopLeft + 1 ->
     MoveOperations.left config model position = Position.mk lineNumber (stopLeft + 1))
  /\ (stickyTabStops config = false
      \/ getLineIndentColumn model lineNumber < column
      \/ stopLeft = -1
      \/ stopLeft + 1 < getLineMinColumn model lineNumber ->
     MoveOperations.left config model position
     = MoveOperations.leftPosition model position)
  /\ (stickyTabStops config = true ->
     column < getLineIndentColumn model lineNumber ->
     stopRight <> -1 ->
     MoveOperations.right config model position = Position.mk lineNumber (stopRight + 1))
  /\ (stickyTabStops config = false
      \/ getLineIndentColumn model lineNumber <= column
      \/ stopRight = -1 ->
     MoveOperations.right config model position
     = MoveOperations.rightPosition model lineNumber column).
Proof.
  cbv zeta.
  unfold MoveOperations.left, MoveOperations.right,
         MoveOperations.leftPositionAtomicSoftTabs,
         MoveOperations.rightPositionAtomicSoftTabs.
  repeat split; intros;
    destruct (stickyTabStops config); try reflexivity; try discriminate;
    repeat match goal with
           | |- context [?a <? ?b] => destruct (Z.ltb_spec a b)
           | |- context [?a <=? ?b] => destruct (Z.leb_spec a b)
           | |- context [?a =? ?b] => destruct (Z.eqb_spec a b)
           end;
    cbn [negb andb]; try reflexivity; try lia;
    repeat match goal with
           | H : _ \/ _ |- _ => destruct H
           end;
    try discriminate; try lia.
Qed.

(** C10. Every horizontal, line-boundary, buffer-boundary and blank-line
    motion returns a state whose columnHint is null, whatever the input;
    a non-null columnHint can only come out of the vertical motions. *)
Theorem non_vertical_motions_clear_columnHint
    (config : CursorConfiguration) (model : ICursorSimpleModel)
    (cursor : SingleCursorState.t) (inSelectionMode sticky : bool)
    (noOfColumns : Z) :
  SingleCursorState.columnHint
    (MoveOperations.moveLeft config model cursor inSelectionMode noOfColumns) = None
  /\ SingleCursorState.columnHint
    (MoveOperations.moveRight config model cursor inSelectionMode noOfColumns) = None
  /\ SingleCursorState.columnHint
    (MoveOperations.moveToBeginningOfLine config model cursor inSelectionMode) = None
  /\ SingleCursorState.columnHint
    (MoveOperations.moveToEndOfLine config model cursor inSelectionMode sticky) = None
  /\ SingleCursorState.columnHint
    (MoveOperations.moveToBeginningOfBuffer config model cursor inSelectionMode) = None
  /\ SingleCursorState.columnHint
    (MoveOperations.moveToEndOfBuffer config model cursor inSelectionMode) = None
  /\ SingleCursorState.columnHint
    (MoveOperations.moveToPrevBlankLine config model cursor inSelectionMode) = None
  /\ SingleCursorState.columnHint
    (MoveOperations.moveToNextBlankLine config model cursor inSelectionMode) = None.
Proof.
  unfold MoveOperations.moveLeft, MoveOperations.moveRight,
         MoveOperations.moveLeftWithVirtualSpace,
         MoveOperations.moveLeftWithoutVirtualSapce,
         MoveOperations.moveRightWithVirtualSpace,
         MoveOperations.moveRightWithoutVirtualSpace,
         MoveOperations.moveToBeginningOfLine, MoveOperations.moveToEndOfLine,
         MoveOperations.moveToBeginningOfBuffer, MoveOperations.moveToEndOfBuffer,
         MoveOperations.moveToPrevBlankLine, MoveOperations.moveToNextBlankLine.
  repeat split;
    destruct_tests;
    cbv zeta; apply move_columnHint.
Qed.

(** The loop of [moveDown] entered with counter [i]: on enough fuel it
    returns attempt [k] for some [k] from [i] to 10, having seen no
    progress in the attempts before [k], and it stops at [k] because of
    progress, because the counter reached 10, or because the next start
    line would not be before the last line. *)
Lemma moveDownLoop_returns
    (config : CursorConfiguration) (model : ICursorSimpleModel)
    (a : MoveOperations.anchor) (linesCount : Z) (fuel : nat) :
  forall i : Z,
    0 <= i <= 10 -> (Z.to_nat (11 - i) <= fuel)%nat ->
    exists k : Z,
      i <= k <= 10
      /\ MoveOperations.moveDownLoop fuel config model a linesCount i
         = Some (MoveOperations.moveDownAttempt config model a linesCount k)
      /\ (forall j : Z, i <= j < k ->
            MoveOperations.moveDownProgress model a
              (MoveOperations.moveDownAttempt config model a linesCount j) = false
            /\ MoveOperations.anchorLineNumber a + (j + 1) < getLineCount model)
      /\ (MoveOperations.moveDownProgress model a
            (MoveOperations.moveDownAttempt config model a linesCount k) = true
          \/ k = 10
          \/ getLineCount model <= MoveOperations.anchorLineNumber a + (k + 1)).
Proof.
  induction fuel as [|fuel IH]; intros i Hi Hfuel.
  - lia.
  - cbn [MoveOperations.moveDownLoop].
    destruct (MoveOperations.moveDownProgress model a
                (MoveOperations.moveDownAttempt config model a linesCount i))
      eqn:Hprogress.
    + exists i. repeat split; try lia. now left.
    + cbv zeta.
      destruct (Z.ltb_spec i 10) as [Hlt|Hge]; cbn [andb].
      * destruct (Z.ltb_spec (MoveOperations.anchorLineNumber a + (i + 1))
                             (getLineCount model)) as [Hline|Hline].
        -- destruct (IH (i + 1)) as (k & Hk & Hloop & Hbefore & Hstop);
             [lia | lia |].
           exists k. repeat split; try lia; try assumption.
           ++ destruct (Z.eq_dec j i) as [->|Hne]; [assumption |].
              apply Hbefore. lia.
           ++ destruct (Z.eq_dec j i) as [->|Hne]; [assumption |].
              apply Hbefore. lia.
        -- exists i. repeat split; lia.
      * exists i. repeat split; lia.
Qed.

(** C3. [moveDown] terminates: on any fuel of at least 11 iterations it
    returns the state built from attempt [i], for some [i] from 0 to 10, so
    there are at most 10 retries after the first attempt. The starting line
    is the line of the rightmost edge of the selection the call leaves, or
    the cursor's line; attempt [j] is [down] from line [lineNumber + j].
    Every attempt before [i] normalized, with affinity None, to a line that
    is not strictly past the starting line, and the loop stopped at [i]
    because that attempt normalizes to a line strictly past the starting
    line, or the 10 retries are used up, or the next start line would not be
    before the last line; the result of that last attempt is returned in
    every case. *)
Theorem moveDown_bounded_retry
    (config : CursorConfiguration) (model : ICursorSimpleModel)
    (cursor : SingleCursorState.t) (inSelectionMode : bool) (linesCount : Z)
    (fuel : nat) (Hfuel : (11 <= fuel)%nat) :
  let collapse :=
    SingleCursorState.hasSelection cursor (virtualSpace config)
    && negb inSelectionMode in
  let edge := SingleCursorState.rightmostPosition cursor in
  let lineNumber :=
    if collapse then SingleCursorState.edgeLineNumber edge
    else Position.lineNumber (SingleCursorState.position cursor) in
  let column :=
    if collapse then SingleCursorState.edgeColumn edge
    else Position.column (SingleCursorState.position cursor) in
  let leftoverVisibleColumns :=
    if collapse then SingleCursorState.edgeLeftoverVisibleColumns edge
    else SingleCursorState.leftoverVisibleColumns cursor in
  let columnHint :=
    if collapse then None else SingleCursorState.columnHint cursor in
  let attempt := fun j : Z =>
    MoveOperations.down config model (lineNumber + j) column
      leftoverVisibleColumns columnHint linesCount true in
  let normalizedLine := fun j : Z =>
    Position.lineNumber
      (normalizePosition model
         (Position.mk (CursorPosition.lineNumber (attempt j))
                      (CursorPosition.column (attempt j)))
         PositionAffinity.None) in
  exists i : Z,
    0 <= i <= 10
    /\ MoveOperations.moveDown fuel config model cursor inSelectionMode linesCount
       = Some (SingleCursorState.move cursor inSelectionMode
                 (CursorPosition.lineNumber (attempt i))
                 (CursorPosition.column (attempt i))
                 (CursorPosition.leftoverVisibleColumns (attempt i))
                 (CursorPosition.columnHint (attempt i)))
    /\ (forall j : Z, 0 <= j < i ->
          normalizedLine j <= lineNumber
          /\ lineNumber + (j + 1) < getLineCount model)
    /\ (lineNumber < normalizedLine i
        \/ i = 10
        \/ getLineCount model <= lineNumber + (i + 1)).
Proof.
  cbv beta zeta.
  destruct (moveDownLoop_returns config model
              (MoveOperations.moveDownAnchor config cursor inSelectionMode)
              linesCount fuel 0) as (k & Hk & Hloop & Hbefore & Hstop).
  - lia.
  - change (Z.to_nat (11 - 0)) with 11%nat. exact Hfuel.
  - exists k. unfold MoveOperations.moveDown. cbv zeta. rewrite Hloop.
    unfold MoveOperations.moveDownProgress, MoveOperations.moveDownAttempt,
           MoveOperations.moveDownAnchor in *.
    destruct (SingleCursorState.hasSelection cursor (virtualSpace config)
              && negb inSelectionMode);
      unfold MoveOperations.anchorOfEdge, MoveOperations.anchorOfCursor in *;
      cbn [MoveOperations.anchorLineNumber MoveOperations.anchorColumn
           MoveOperations.anchorLeftoverVisibleColumns
           MoveOperations.anchorColumnHint] in *.
    all: split; [lia | split; [reflexivity | split]].
    all: try (intros j Hj; destruct (Hbefore j ltac:(lia)) as [Hnone Hnext];
              apply Z.ltb_ge in Hnone; split; assumption).
    all: destruct Hstop as [Hprogress | Hstop];
      [left; apply Z.ltb_lt; exact Hprogress | right; exact Hstop].
Qed.

(** [moveDownProgress] is the test of the loop's [break]: the line of the
    result normalized with affinity None is past the starting line. *)
Lemma moveDownProgress_iff (model : ICursorSimpleModel)
    (a : MoveOperations.anchor) (r : CursorPosition.t) :
  MoveOperations.moveDownProgress model a r = true
  <-> MoveOperations.anchorLineNumber a
      < Position.lineNumber
          (normalizePosition model
             (Position.mk (CursorPosition.lineNumber r) (CursorPosition.column r))
             PositionAffinity.None).
Proof. unfold MoveOperations.moveDownProgress. apply Z.ltb_lt. Qed.

Lemma loop_condition_true (c b blank : bool) :
  c && Bool.eqb b blank = true -> c = true /\ b = blank.
Proof.
  intros H. apply andb_prop in H. destruct H as [Hc Hb].
  split; [assumption | now apply eqb_prop].
Qed.

Lemma loop_condition_false (c b blank : bool) :
  c && Bool.eqb b blank = false -> c = false \/ b = negb blank.
Proof. destruct c, b, blank; cbn; intros H; auto; discriminate. Qed.

(** The upward scan stops at or above its start and not above line 1,
    passes only lines whose blankness is [blank], and stops on line 1 or on
    a line of the other blankness. *)
Lemma scanUp_spec (model : ICursorSimpleModel) (blank : bool) (lineNumber : Z) :
  MoveOperations.scanUp model blank lineNumber <= lineNumber
  /\ (1 <= lineNumber -> 1 <= MoveOperations.scanUp model blank lineNumber)
  /\ (forall j : Z,
        MoveOperations.scanUp model blank lineNumber < j <= lineNumber ->
        MoveOperations._isBlankLine model j = blank)
  /\ (MoveOperations.scanUp model blank lineNumber <= 1
      \/ MoveOperations._isBlankLine model
           (MoveOperations.scanUp model blank lineNumber) = negb blank).
Proof.
  funelim (MoveOperations.scanUp model blank lineNumber).
  - destruct (loop_condition_true _ _ _ e) as [Hgt Hblank].
    apply Z.ltb_lt in Hgt.
    destruct H as (Hle & Hge & Hrun & Hstop).
    repeat split; try lia; try assumption.
    intros j Hj. destruct (Z.eq_dec j lineNumber) as [->|Hne].
    + exact Hblank.
    + apply Hrun. lia.
  - repeat split; try lia.
    destruct (loop_condition_false _ _ _ e) as [Hle|Hother];
      [left | right; exact Hother].
    apply Z.ltb_ge in Hle. exact Hle.
Qed.

(** The downward scan, symmetrically, up to the last line. *)
Lemma scanDown_spec (model : ICursorSimpleModel) (blank : bool)
    (lineCount lineNumber : Z) :
  lineNumber <= MoveOperations.scanDown model blank lineCount lineNumber
  /\ (lineNumber <= lineCount ->
      MoveOperations.scanDown model blank lineCount lineNumber <= lineCount)
  /\ (forall j : Z,
        lineNumber <= j < MoveOperations.scanDown model blank lineCount lineNumber ->
        MoveOperations._isBlankLine model j = blank)
  /\ (lineCount <= MoveOperations.scanDown model blank lineCount lineNumber
      \/ MoveOperations._isBlankLine model
           (MoveOperations.scanDown model blank lineCount lineNumber) = negb blank).
Proof.
  funelim (MoveOperations.scanDown model blank lineCount lineNumber).
  - destruct (loop_condition_true _ _ _ e) as [Hlt Hblank].
    apply Z.ltb_lt in Hlt.
    destruct H as (Hle & Hge & Hrun & Hstop).
    repeat split; try lia; try assumption.
    intros j Hj. destruct (Z.eq_dec j lineNumber) as [->|Hne].
    + exact Hblank.
    + apply Hrun. lia.
  - repeat split; try lia.
    destruct (loop_condition_false _ _ _ e) as [Hle|Hother];
      [left | right; exact Hother].
    apply Z.ltb_ge in Hle. exact Hle.
Qed.

(** C9. A line is blank exactly when the model reports 0 as its first
    non-whitespace column. [moveToPrevBlankLine] goes up from the cursor's
    line over a run of blank lines to a line [m], then over a run of
    non-blank lines to a line [r], which is blank or line 1, and returns
    the minimum column of line [r]; [moveToNextBlankLine] does the same
    downwards, up to the last line. On the content "a", "", "b", "c", ""
    from line 3 the next-blank motion lands on line 5 and the
    previous-blank motion on line 2. *)
Theorem blank_line_motions
    (config : CursorConfiguration) (model : ICursorSimpleModel)
    (cursor : SingleCursorState.t) (inSelectionMode : bool) :
  let start := Position.lineNumber (SingleCursorState.position cursor) in
  let lineCount := getLineCount model in
  let blank := MoveOperations._isBlankLine model in
  (forall l : Z, blank l = true <-> getLineFirstNonWhitespaceColumn model l = 0)
  /\ (exists m r : Z,
        r <= m <= start /\ (1 <= start -> 1 <= r)
        /\ (forall j : Z, m < j <= start -> blank j = true)
        /\ (m <= 1 \/ blank m = false)
        /\ (forall j : Z, r < j <= m -> blank j = false)
        /\ (r <= 1 \/ blank r = true)
        /\ SingleCursorState.position
             (MoveOperations.moveToPrevBlankLine config model cursor inSelectionMode)
           = Position.mk r (getLineMinColumn model r))
  /\ (exists m r : Z,
        start <= m <= r /\ (start <= lineCount -> r <= lineCount)
        /\ (forall j : Z, start <= j < m -> blank j = true)
        /\ (lineCount <= m \/ blank m = false)
        /\ (forall j : Z, m <= j < r -> blank j = false)
        /\ (lineCount <= r \/ blank r = true)
        /\ SingleCursorState.position
             (MoveOperations.moveToNextBlankLine config model cursor inSelectionMode)
           = Position.mk r (getLineMinColumn model r))
  /\ (let sample := Sample.textModel ["a"; ""; "b"; "c"; ""]%string in
      SingleCursorState.position
        (MoveOperations.moveToNextBlankLine config sample (Sample.cursorAt 3 1)
                                            inSelectionMode)
      = Position.mk 5 1
      /\ SingleCursorState.position
        (MoveOperations.moveToPrevBlankLine config sample (Sample.cursorAt 3 1)
                                            inSelectionMode)
      = Position.mk 2 1).
Proof.
  cbv zeta. split; [| split; [| split]].
  - intros l. unfold MoveOperations._isBlankLine.
    destruct (Z.eqb_spec (getLineFirstNonWhitespaceColumn model l) 0);
      split; intros; congruence.
  - set (start := Position.lineNumber (SingleCursorState.position cursor)).
    destruct (scanUp_spec model true start) as (Hle1 & Hge1 & Hrun1 & Hstop1).
    destruct (scanUp_spec model false (MoveOperations.scanUp model true start))
      as (Hle2 & Hge2 & Hrun2 & Hstop2).
    exists (MoveOperations.scanUp model true start),
           (MoveOperations.scanUp model false (MoveOperations.scanUp model true start)).
    unfold MoveOperations.moveToPrevBlankLine. cbv zeta.
    rewrite move_position. fold start.
    repeat split; try lia; try assumption; auto.
  - set (start := Position.lineNumber (SingleCursorState.position cursor)).
    set (lineCount := getLineCount model).
    destruct (scanDown_spec model true lineCount start)
      as (Hle1 & Hge1 & Hrun1 & Hstop1).
    destruct (scanDown_spec model false lineCount
                (MoveOperations.scanDown model true lineCount start))
      as (Hle2 & Hge2 & Hrun2 & Hstop2).
    exists (MoveOperations.scanDown model true lineCount start),
           (MoveOperations.scanDown model false lineCount
              (MoveOperations.scanDown model true lineCount start)).
    unfold MoveOperations.moveToNextBlankLine. cbv zeta.
    rewrite move_position. fold start lineCount.
    repeat split; try lia; try assumption; auto.
  - unfold MoveOperations.moveToNextBlankLine, MoveOperations.moveToPrevBlankLine.
    cbv zeta. rewrite !move_position. split; vm_compute; reflexivity.
Qed.


Lemma clipRange_inside (value min max : Z) :
  min <= value <= max -> MoveOperations.clipRange value min max = value.
Proof.
  intros H. unfold MoveOperations.clipRange.
  destruct (Z.ltb_spec value min); [lia |].
  destruct (Z.ltb_spec max value); [lia | reflexivity].
Qed.

Lemma clipPositionColumn_inside (model : ICursorSimpleModel) (p : Position.t) :
  getLineMinColumn model (Position.lineNumber p) <= Position.column p
    <= getLineMaxColumn model (Position.lineNumber p) ->
  MoveOperations.clipPositionColumn p model = p.
Proof.
  intros H. unfold MoveOperations.clipPositionColumn.
  rewrite clipRange_inside by assumption. apply Position_eta.
Qed.

Lemma Range_make_point (l c : Z) : Range.make l c l c = Range.mk l c l c.
Proof.
  unfold Range.make. rewrite !Z.ltb_irrefl, Z.eqb_refl. reflexivity.
Qed.

Lemma hasSelection_move_collapsed c l col lo h virtualSpace :
  SingleCursorState.hasSelection (SingleCursorState.move c false l col lo h)
                                 virtualSpace = false.
Proof.
  unfold SingleCursorState.hasSelection, SingleCursorState.selection,
         SingleCursorState.move, SingleCursorState._computeSelection.
  cbn [SingleCursorState.selectionStart SingleCursorState.position].
  rewrite Range_make_point.
  unfold Range.isEmpty at 1. cbn [Range.startLineNumber Range.endLineNumber
                                  Range.startColumn Range.endColumn].
  rewrite !Z.eqb_refl. cbn [andb orb].
  unfold Selection.isEmpty, Selection.toRange, Selection.fromPositions,
         Range.getStartPosition.
  cbn. rewrite Range_make_point. unfold Range.isEmpty. cbn.
  rewrite !Z.eqb_refl. reflexivity.
Qed.

(** Without virtual space, sticky tab stops or a selection, and with no
    injected text, moving by one column is the plain step. *)
Lemma moveRight_plain (config : CursorConfiguration) (model : ICursorSimpleModel)
    (cursor : SingleCursorState.t) :
  virtualSpace config = false -> stickyTabStops config = false ->
  SingleCursorState.hasSelection cursor false = false ->
  validPosition model (SingleCursorState.position cursor) ->
  normalizesInPlace model ->
  SingleCursorState.position (MoveOperations.moveRight config model cursor false 1)
  = MoveOperations.rightPosition model
      (Position.lineNumber (SingleCursorState.position cursor))
      (Position.column (SingleCursorState.position cursor)).
Proof.
  intros Hvirtual Hsticky Hsel [_ Hcolumn] Hnorm.
  unfold MoveOperations.moveRight. rewrite Hvirtual.
  unfold MoveOperations.moveRightWithoutVirtualSpace. rewrite Hsel.
  cbn [andb]. cbv zeta. rewrite move_position.
  change (1 - 1) with 0. rewrite Position_delta_0.
  rewrite clipPositionColumn_inside by assumption.
  rewrite Hnorm by assumption.
  unfold MoveOperations.right. rewrite Hsticky. apply Position_eta.
Qed.

Lemma moveLeft_plain (config : CursorConfiguration) (model : ICursorSimpleModel)
    (cursor : SingleCursorState.t) :
  virtualSpace config = false -> stickyTabStops config = false ->
  SingleCursorState.hasSelection cursor false = false ->
  validPosition model (SingleCursorState.position cursor) ->
  normalizesInPlace model ->
  SingleCursorState.position (MoveOperations.moveLeft config model cursor false 1)
  = MoveOperations.leftPosition model (SingleCursorState.position cursor).
Proof.
  intros Hvirtual Hsticky Hsel [_ Hcolumn] Hnorm.
  unfold MoveOperations.moveLeft. rewrite Hvirtual.
  unfold MoveOperations.moveLeftWithoutVirtualSapce. rewrite Hsel.
  cbn [andb]. cbv zeta. rewrite move_position.
  change (- (1 - 1)) with 0. rewrite Position_delta_0.
  rewrite clipPositionColumn_inside by assumption.
  rewrite Hnorm by assumption.
  unfold MoveOperations.left. rewrite Hsticky. apply Position_eta.
Qed.

Lemma moveRight_collapsed (config : CursorConfiguration)
    (model : ICursorSimpleModel) (cursor : SingleCursorState.t)
    (noOfColumns : Z) (virtualSpace : bool) :
  SingleCursorState.hasSelection
    (MoveOperations.moveRight config model cursor false noOfColumns) virtualSpace
  = false.
Proof.
  unfold MoveOperations.moveRight, MoveOperations.moveRightWithVirtualSpace,
         MoveOperations.moveRightWithoutVirtualSpace.
  destruct_tests;
    cbv zeta; apply hasSelection_move_collapsed.
Qed.

(** Away from the end of the buffer, the plain step to the right lands on
    a valid position from which the plain step to the left comes back. *)
Lemma rightPosition_leftPosition (model : ICursorSimpleModel) (l c : Z) :
  validPosition model (Position.mk l c) ->
  linesWellFormed model -> charLengthsAgreeAt model (Position.mk l c) ->
  ~ atBufferEnd model (Position.mk l c) ->
  validPosition model (MoveOperations.rightPosition model l c)
  /\ MoveOperations.leftPosition model (MoveOperations.rightPosition model l c)
     = Position.mk l c.
Proof.
  unfold validPosition, atBufferEnd, charLengthsAgreeAt.
  cbn [Position.lineNumber Position.column].
  intros [Hline Hcolumn] Hlines Hchar Hnotend.
  unfold MoveOperations.rightPosition.
  destruct (Z.ltb_spec c (getLineMaxColumn model l)) as [Hlt|Hge].
  - destruct (Hchar Hlt) as (Hn & Hle & Hprev).
    cbn [Position.lineNumber Position.column].
    split; [lia |].
    unfold MoveOperations.leftPosition. cbn [Position.lineNumber Position.column].
    destruct (Z.ltb_spec (getLineMinColumn model l)
                (c + nextCharLength (getLineContent model l) (c - 1))); [| lia].
    unfold Position.delta. cbn [Position.lineNumber Position.column].
    rewrite Hprev. f_equal; lia.
  - destruct (Z.ltb_spec l (getLineCount model)) as [Hnext|Hlast]; [| lia].
    cbv zeta. cbn [Position.lineNumber Position.column].
    assert (Hnextline : getLineMinColumn model (l + 1) <= getLineMaxColumn model (l + 1))
      by (apply Hlines; lia).
    split; [lia |].
    unfold MoveOperations.leftPosition. cbn [Position.lineNumber Position.column].
    rewrite Z.ltb_irrefl.
    destruct (Z.ltb_spec 1 (l + 1)); [| lia].
    cbv zeta. replace (l + 1 - 1) with l by lia. f_equal. lia.
Qed.

(** C2, as the code has it. On a model without injected text, with virtual
    space and sticky tab stops disabled, take a cursor with no selection on a
    valid position at which the character-length queries agree. Away from the
    end of the buffer it comes back to its position after [moveRight] and
    then [moveLeft] by one column. At the end of the buffer [moveRight]
    leaves the position unchanged, so that the composition is the plain step
    to the left from there, which does move unless the end of the buffer is
    also its start; and at the start of the buffer [moveLeft] leaves the
    position unchanged. *)
Theorem moveRight_then_moveLeft
    (config : CursorConfiguration) (model : ICursorSimpleModel)
    (cursor : SingleCursorState.t)
    (Hvirtual : virtualSpace config = false)
    (Hsticky : stickyTabStops config = false)
    (Hselection : SingleCursorState.hasSelection cursor false = false)
    (Hvalid : validPosition model (SingleCursorState.position cursor))
    (Hnormalize : normalizesInPlace model)
    (Hlines : linesWellFormed model)
    (Hchars : charLengthsAgreeAt model (SingleCursorState.position cursor)) :
  let p := SingleCursorState.position cursor in
  let there := MoveOperations.moveRight config model cursor false 1 in
  let back := MoveOperations.moveLeft config model there false 1 in
  (~ atBufferEnd model p -> SingleCursorState.position back = p)
  /\ (atBufferEnd model p -> SingleCursorState.position there = p)
  /\ (atBufferEnd model p ->
      SingleCursorState.position back = MoveOperations.leftPosition model p)
  /\ (atBufferEnd model p ->
      (getLineMinColumn model (Position.lineNumber p) < Position.column p ->
       prevCharLength (getLineContent model (Position.lineNumber p))
                      (Position.column p - 1) <> 0) ->
      1 < Position.lineNumber p
      \/ getLineMinColumn model (Position.lineNumber p) < Position.column p ->
      SingleCursorState.position back <> p)
  /\ (atBufferStart model p ->
      SingleCursorState.position
        (MoveOperations.moveLeft config model cursor false 1) = p).
Proof.
  cbv zeta.
  pose proof (moveRight_plain config model cursor Hvirtual Hsticky Hselection
                Hvalid Hnormalize) as Hright.
  pose proof (moveLeft_plain config model cursor Hvirtual Hsticky Hselection
                Hvalid Hnormalize) as Hleft.
  destruct (SingleCursorState.position cursor) as [l c] eqn:Hp.
  cbn [Position.lineNumber Position.column] in Hright.
  assert (Hstay : atBufferEnd model (Position.mk l c) ->
                  SingleCursorState.position
                    (MoveOperations.moveRight config model cursor false 1)
                  = Position.mk l c).
  { intros [Hline Hcolumn]. cbn [Position.lineNumber Position.column] in *.
    rewrite Hright. unfold MoveOperations.rightPosition.
    destruct (Z.ltb_spec c (getLineMaxColumn model l)); [lia |].
    destruct (Z.ltb_spec l (getLineCount model)); [lia | reflexivity]. }
  assert (Hcomposed : atBufferEnd model (Position.mk l c) ->
                      SingleCursorState.position
                        (MoveOperations.moveLeft config model
                           (MoveOperations.moveRight config model cursor false 1)
                           false 1)
                      = MoveOperations.leftPosition model (Position.mk l c)).
  { intros Hend.
    rewrite moveLeft_plain; try assumption.
    - rewrite (Hstay Hend). reflexivity.
    - apply moveRight_collapsed.
    - rewrite (Hstay Hend). exact Hvalid. }
  split; [| split; [| split; [| split]]].
  - intros Hnotend.
    destruct (rightPosition_leftPosition model l c Hvalid Hlines Hchars Hnotend)
      as [Hvalid' Hback].
    rewrite moveLeft_plain; try assumption.
    + rewrite Hright. exact Hback.
    + apply moveRight_collapsed.
    + rewrite Hright. exact Hvalid'.
  - exact Hstay.
  - exact Hcomposed.
  - intros Hend Hprev Hnotstart. rewrite (Hcomposed Hend).
    cbn [Position.lineNumber Position.column] in *.
    unfold MoveOperations.leftPosition, Position.delta.
    cbn [Position.lineNumber Position.column].
    destruct (Z.ltb_spec (getLineMinColumn model l) c) as [Hinside|Hfirst].
    + specialize (Hprev Hinside). intros Heq.
      injection Heq as _ Hcolumn. lia.
    + destruct (Z.ltb_spec 1 l) as [Hprevline|Hfirstline]; [| lia].
      cbv zeta. intros Heq. injection Heq as Hline _. lia.
  - intros [Hline Hcolumn]. cbn [Position.lineNumber Position.column] in *.
    rewrite Hleft. unfold MoveOperations.leftPosition.
    cbn [Position.lineNumber Position.column].
    destruct (Z.ltb_spec (getLineMinColumn model l) c); [lia |].
    destruct (Z.ltb_spec 1 l); [lia | reflexivity].
Qed.









(** With virtual space disabled, [vertical] clears the hint exactly when
    the target line is the last line and the column it was called with is
    that line's maximum column: the line it was called with plays no part
    in the edge test. *)
Lemma vertical_edge_test config model lineNumber column leftover columnHint
    newLineNumber allowMoveOnEdgeLine normalizationAffinity :
  virtualSpace config = false ->
  CursorPosition.columnHint
    (MoveOperations.vertical config model lineNumber column leftover columnHint
       newLineNumber allowMoveOnEdgeLine normalizationAffinity) = None
  <-> (newLineNumber = getLineCount model
       /\ column = getLineMaxColumn model newLineNumber).
Proof.
  intros Hvirtual. unfold MoveOperations.vertical. rewrite Hvirtual.
  rewrite Z.ltb_irrefl.
  destruct (Z.eqb_spec newLineNumber (getLineCount model));
    destruct (Z.eqb_spec column (getLineMaxColumn model newLineNumber));
    destruct columnHint as [hint|]; destruct normalizationAffinity as [affinity|];
    cbn [andb];
    destruct_tests;
    cbn; split; intros; try discriminate; try tauto; try lia.
Qed.

(** X12. With virtual space disabled and no normalization, a target line outside
    the buffer is clamped to the nearest edge line, and the column is that
    line's minimum (above the buffer) or maximum (below it) column when
    moving on the edge line is allowed, and otherwise the smaller of the
    old column and the edge line's maximum column. *)
Lemma vertical_clamps_target_line config model lineNumber column leftover
    columnHint newLineNumber allowMoveOnEdgeLine :
  virtualSpace config = false ->
  let r := MoveOperations.vertical config model lineNumber column leftover
             columnHint newLineNumber allowMoveOnEdgeLine None in
  (newLineNumber < 1 ->
     CursorPosition.lineNumber r = 1
     /\ CursorPosition.column r
        = if allowMoveOnEdgeLine then getLineMinColumn model 1
          else Z.min (getLineMaxColumn model 1) column)
  /\ (1 <= newLineNumber -> getLineCount model < newLineNumber ->
      CursorPosition.lineNumber r = getLineCount model
      /\ CursorPosition.column r
         = if allowMoveOnEdgeLine then getLineMaxColumn model (getLineCount model)
           else Z.min (getLineMaxColumn model (getLineCount model)) column).
Proof.
  intros Hvirtual. cbv zeta. unfold MoveOperations.vertical. rewrite Hvirtual.
  rewrite Z.ltb_irrefl.
  split; intros;
    destruct (Z.ltb_spec newLineNumber 1); try lia;
    destruct (Z.ltb_spec (getLineCount model) newLineNumber); try lia;
    destruct columnHint as [hint|]; destruct allowMoveOnEdgeLine;
    destruct_tests;
    cbn; split; reflexivity.
Qed.

End Properties.

(** C1 on the selection [(1,1)-(1,5)] of the line "abcdef". *)
Lemma moveLeft_moveRight_collapse_selection_witness :
  let config := Sample.config false false in
  let model := Sample.textModel ["abcdef"%string] in
  let cursor := Sample.cursorSelecting 1 1 1 5 in
  SingleCursorState.position
    (@MoveOperations.moveLeft Sample.unitStrings Sample.spaceStops config model cursor false 1)
    = Position.mk 1 1
  /\ SingleCursorState.position
    (@MoveOperations.moveRight Sample.unitStrings Sample.spaceStops config model cursor false 1)
    = Position.mk 1 5.
Proof.
  pose proof (@moveLeft_moveRight_collapse_selection
                Sample.unitStrings Sample.spaceStops
                (Sample.config false false) (Sample.textModel ["abcdef"%string])
                (Sample.cursorSelecting 1 1 1 5) 1 eq_refl eq_refl) as H.
  cbv zeta in H. destruct H as (Hl & _ & _ & Hr & _ & _).
  split; [exact Hl | exact Hr].
Defined.

(** ** The properties on the sample model *)

(** C5 on two lines of two-unit characters, "aabb" standing for two
    surrogate pairs: the steps inside the line skip the odd columns, and the
    steps at the line boundaries and buffer edges are as stated. *)
Lemma leftPosition_rightPosition_plain_step_witness :
  let model := Sample.textModel ["aabb"; "cc"]%string in
  @MoveOperations.leftPosition Sample.pairStrings model (Position.mk 1 3)
  = Position.mk 1 1
  /\ @MoveOperations.leftPosition Sample.pairStrings model (Position.mk 2 1)
    = Position.mk 1 5
  /\ @MoveOperations.leftPosition Sample.pairStrings model (Position.mk 1 1)
    = Position.mk 1 1
  /\ @MoveOperations.rightPosition Sample.pairStrings model 1 1 = Position.mk 1 3
  /\ @MoveOperations.rightPosition Sample.pairStrings model 1 5 = Position.mk 2 1
  /\ @MoveOperations.rightPosition Sample.pairStrings model 2 3 = Position.mk 2 3.
Proof.
  cbv zeta.
  pose proof (@leftPosition_rightPosition_plain_step Sample.pairStrings
                (Sample.textModel ["aabb"; "cc"]%string)) as step.
  cbv zeta in step.
  destruct (step 1 3) as (Hleft & _).
  destruct (step 2 1) as (_ & Hup & _).
  destruct (step 1 1) as (_ & _ & Hstart & Hright & _).
  destruct (step 1 5) as (_ & _ & _ & _ & Hdown & _).
  destruct (step 2 3) as (_ & _ & _ & _ & _ & Hend).
  split; [| split; [| split; [| split; [| split]]]].
  - apply Hleft. vm_compute. reflexivity.
  - apply Hup; vm_compute; [discriminate | reflexivity].
  - apply Hstart; vm_compute; discriminate.
  - apply Hright. vm_compute. reflexivity.
  - apply Hdown; vm_compute; [discriminate | reflexivity].
  - apply Hend; vm_compute; discriminate.
Defined.

(** C8 on the line "    x" with tab size 4: inside the indentation the steps
    go from tab stop to tab stop, and past it the step is the plain one. *)
Lemma left_right_atomic_soft_tabs_witness :
  let config := Sample.config true false in
  let model := Sample.textModel ["    x"%string] in
  @MoveOperations.left Sample.unitStrings Sample.spaceStops config model
    (Position.mk 1 5) = Position.mk 1 1
  /\ @MoveOperations.right Sample.unitStrings Sample.spaceStops config model
    (Position.mk 1 1) = Position.mk 1 5
  /\ @MoveOperations.left Sample.unitStrings Sample.spaceStops config model
    (Position.mk 1 6)
    = @MoveOperations.leftPosition Sample.unitStrings model (Position.mk 1 6).
Proof.
  cbv zeta.
  pose proof (@left_right_atomic_soft_tabs Sample.unitStrings Sample.spaceStops
                (Sample.config true false)
                (Sample.textModel ["    x"%string])) as step.
  cbv zeta in step.
  destruct (step (Position.mk 1 5)) as (Hleft & _).
  destruct (step (Position.mk 1 1)) as (_ & _ & Hright & _).
  destruct (step (Position.mk 1 6)) as (_ & Hplain & _).
  split; [| split].
  - apply Hleft; vm_compute; solve [reflexivity | discriminate].
  - apply Hright; vm_compute; solve [reflexivity | discriminate].
  - apply Hplain. right. left. vm_compute. reflexivity.
Defined.

(** C2 on two lines of two-unit characters, "aabb" standing for two
    surrogate pairs: from the start of the first line [moveRight] steps over
    a whole pair and [moveLeft] steps back over it, and from the end of the
    first line [moveRight] crosses to the second line and [moveLeft] comes
    back. *)
Lemma moveRight_then_moveLeft_witness :
  let config := Sample.config false false in
  let model := Sample.textModel ["aabb"; "cc"]%string in
  let there := fun cursor : SingleCursorState.t =>
    @MoveOperations.moveRight Sample.pairStrings Sample.spaceStops config model
      cursor false 1 in
  let back := fun cursor : SingleCursorState.t =>
    @MoveOperations.moveLeft Sample.pairStrings Sample.spaceStops config model
      cursor false 1 in
  SingleCursorState.position (there (Sample.cursorAt 1 1)) = Position.mk 1 3
  /\ SingleCursorState.position (back (there (Sample.cursorAt 1 1))) = Position.mk 1 1
  /\ SingleCursorState.position (there (Sample.cursorAt 1 5)) = Position.mk 2 1
  /\ SingleCursorState.position (back (there (Sample.cursorAt 1 5))) = Position.mk 1 5.
Proof.
  cbv beta zeta.
  pose proof (fun cursor =>
                @moveRight_then_moveLeft Sample.pairStrings Sample.spaceStops
                  (Sample.config false false)
                  (Sample.textModel ["aabb"; "cc"]%string) cursor
                  eq_refl eq_refl) as Hround.
  assert (Hnormalize : normalizesInPlace (Sample.textModel ["aabb"; "cc"]%string))
    by (intros q affinity _; reflexivity).
  assert (Hlines : linesWellFormed (Sample.textModel ["aabb"; "cc"]%string))
    by (intros l _; cbn; unfold Sample.lineLength; lia).
  split; [vm_compute; reflexivity | split; [| split; [vm_compute; reflexivity |]]].
  - refine (proj1 (Hround (Sample.cursorAt 1 1) eq_refl _ Hnormalize Hlines _) _).
    + unfold validPosition. vm_compute. repeat split; discriminate.
    + intros _. vm_compute. repeat split; discriminate.
    + unfold atBufferEnd. cbn. intros [Hline _]. discriminate Hline.
  - refine (proj1 (Hround (Sample.cursorAt 1 5) eq_refl _ Hnormalize Hlines _) _).
    + unfold validPosition. vm_compute. repeat split; discriminate.
    + intros Hinside. vm_compute in Hinside. discriminate Hinside.
    + unfold atBufferEnd. cbn. intros [Hline _]. discriminate Hline.
Defined.

(** C2 as stated fails at the end of the buffer, where [moveRight] does not
    move and [moveLeft] then does, and with sticky tab stops inside the
    indentation, where the two steps land on different tab stops. *)
Lemma moveRight_then_moveLeft_not_identity :
  (let config := Sample.config false false in
   let model := Sample.textModel ["ab"%string] in
   let cursor := Sample.cursorAt 1 3 in
   validPosition model (SingleCursorState.position cursor)
   /\ atBufferEnd model (SingleCursorState.position cursor)
   /\ SingleCursorState.hasSelection cursor false = false
   /\ SingleCursorState.position
        (@MoveOperations.moveRight Sample.unitStrings Sample.spaceStops config model
           cursor false 1) = Position.mk 1 3
   /\ SingleCursorState.position
        (@MoveOperations.moveLeft Sample.unitStrings Sample.spaceStops config model
           (@MoveOperations.moveRight Sample.unitStrings Sample.spaceStops config model
              cursor false 1) false 1) = Position.mk 1 2)
  /\ (let config := Sample.config true false in
      let model := Sample.textModel ["    x"%string] in
      let cursor := Sample.cursorAt 1 2 in
      validPosition model (SingleCursorState.position cursor)
      /\ ~ atBufferEnd model (SingleCursorState.position cursor)
      /\ SingleCursorState.position
           (@MoveOperations.moveRight Sample.unitStrings Sample.spaceStops config model
              cursor false 1) = Position.mk 1 5
      /\ SingleCursorState.position
           (@MoveOperations.moveLeft Sample.unitStrings Sample.spaceStops config model
              (@MoveOperations.moveRight Sample.unitStrings Sample.spaceStops config
                 model cursor false 1) false 1) = Position.mk 1 1).
Proof.
  cbv zeta. unfold validPosition, atBufferEnd.
  repeat split; try (vm_compute; reflexivity); try (vm_compute; discriminate).
  vm_compute. intros [_ H]. discriminate H.
Defined.

(** C3 on twenty hidden lines: every attempt normalizes back to line 1, and
    [moveDown] still returns. *)
Lemma moveDown_bounded_retry_witness :
  exists s : SingleCursorState.t,
    @MoveOperations.moveDown Sample.plainColumns 11 (Sample.config false false)
      Sample.foldedModel (Sample.cursorAt 1 1) false 1 = Some s.
Proof.
  destruct (@moveDown_bounded_retry Sample.plainColumns (Sample.config false false)
              Sample.foldedModel (Sample.cursorAt 1 1) false 1 11%nat (le_n 11))
    as (i & _ & Hreturn & _).
  eexists. exact Hreturn.
Defined.

(** There the loop runs its 11 attempts and returns the last one, which
    started on line 11 and went down to line 12. *)
Example moveDown_folded_lines :
  @MoveOperations.moveDown Sample.plainColumns 11 (Sample.config false false)
    Sample.foldedModel (Sample.cursorAt 1 1) false 1
  = Some (SingleCursorState.mk (Range.mk 12 1 12 1) SelectionStartKind.Simple 0
            (Position.mk 12 1) 0 (Some 0))
  /\ @MoveOperations.moveDown Sample.plainColumns 10 (Sample.config false false)
       Sample.foldedModel (Sample.cursorAt 1 1) false 1 = None.
Proof. split; vm_compute; reflexivity. Qed.





(** C7, the code on its failing inputs, with virtual space disabled on the
    one-line buffer "abc": [moveUp] from the start of the buffer and
    [moveDown] from its end both return a columnHint that is not null. *)
Theorem vertical_from_buffer_edge_keeps_columnHint :
  let config := Sample.config false false in
  let model := Sample.textModel ["abc"%string] in
  @MoveOperations.moveUp Sample.plainColumns config model (Sample.cursorAt 1 1) false 1
  = SingleCursorState.mk (Range.mk 1 1 1 1) SelectionStartKind.Simple 0
                         (Position.mk 1 1) 0 (Some 0)
  /\ @MoveOperations.moveDown Sample.plainColumns 11 config model
       (Sample.cursorAt 1 4) false 1
     = Some (SingleCursorState.mk (Range.mk 1 4 1 4) SelectionStartKind.Simple 0
                                  (Position.mk 1 4) 0 (Some 3)).
Proof. cbv zeta. split; vm_compute; reflexivity. Qed.

(** A vertical motion is where a columnHint that is not null comes from:
    [moveUp] onto a shorter line keeps the visible column it left. *)
Example moveUp_sets_columnHint :
  SingleCursorState.columnHint
    (@MoveOperations.moveUp Sample.plainColumns (Sample.config false false)
       (Sample.textModel ["ab"; "abcdefgh"]%string) (Sample.cursorAt 2 8) false 1)
  = Some 7.
Proof. vm_compute. reflexivity. Qed.

(** ** More of the class: vertical motion *)

Section VerticalProperties.
Context {cursorColumns : CursorColumns}.

(** The line [vertical] lands on, when the buffer has a line and the
    normalization it is asked for, if any, keeps the line. *)
Lemma vertical_lineNumber
    (config : CursorConfiguration) (model : ICursorSimpleModel)
    (lineNumber column leftover : Z) (columnHint : option Z) (newLineNumber : Z)
    (allowMoveOnEdgeLine : bool) (normalizationAffinity : option PositionAffinity.t) :
  1 <= getLineCount model ->
  (forall (affinity : PositionAffinity.t) (q : Position.t),
      normalizationAffinity = Some affinity ->
      Position.lineNumber (normalizePosition model q affinity) = Position.lineNumber q) ->
  CursorPosition.lineNumber
    (MoveOperations.vertical config model lineNumber column leftover columnHint
       newLineNumber allowMoveOnEdgeLine normalizationAffinity)
  = Z.max 1 (Z.min (getLineCount model) newLineNumber).
Proof.
  intros Hlines Hnormalize.
  unfold MoveOperations.vertical.
  destruct columnHint as [hint|]; destruct (virtualSpace config);
    destruct normalizationAffinity as [affinity|];
    cbv zeta;
    repeat match goal with
           | |- context [?a <? ?b] => destruct (Z.ltb_spec a b)
           end;
    destruct_tests; cbn;
    try rewrite (Hnormalize _ _ eq_refl); cbn; lia.
Qed.

(** X1. [vertical] lands on the target line clamped into the buffer,
    [max 1 (min lineCount newLineNumber)], under either setting of virtual
    space, when the buffer has a line and the normalization it is asked for,
    if any, keeps the line. *)
Theorem vertical_target_line
    (config : CursorConfiguration) (model : ICursorSimpleModel)
    (lineNumber column leftover : Z) (columnHint : option Z) (newLineNumber : Z)
    (allowMoveOnEdgeLine : bool) (normalizationAffinity : option PositionAffinity.t)
    (Hlines : 1 <= getLineCount model)
    (Hnormalize : forall (affinity : PositionAffinity.t) (q : Position.t),
        normalizationAffinity = Some affinity ->
        Position.lineNumber (normalizePosition model q affinity)
        = Position.lineNumber q) :
  CursorPosition.lineNumber
    (MoveOperations.vertical config model lineNumber column leftover columnHint
       newLineNumber allowMoveOnEdgeLine normalizationAffinity)
  = Z.max 1 (Z.min (getLineCount model) newLineNumber)
  /\ 1 <= CursorPosition.lineNumber
            (MoveOperations.vertical config model lineNumber column leftover columnHint
               newLineNumber allowMoveOnEdgeLine normalizationAffinity)
       <= getLineCount model.
Proof.
  rewrite vertical_lineNumber by assumption. split; [reflexivity | lia].
Qed.


(** On a model without injected text the first attempt of [moveDown] is the
    last: either it made progress, or the starting line is the last line and
    there is nothing to retry. *)
Lemma moveDownLoop_first_attempt
    (config : CursorConfiguration) (model : ICursorSimpleModel)
    (a : MoveOperations.anchor) (linesCount : Z) (fuel : nat) :
  noInjectedText model -> 1 <= getLineCount model -> 1 <= linesCount ->
  MoveOperations.moveDownLoop (S fuel) config model a linesCount 0
  = Some (MoveOperations.moveDownAttempt config model a linesCount 0).
Proof.
  intros Hnorm Hlines Hcount.
  cbn [MoveOperations.moveDownLoop].
  destruct (MoveOperations.moveDownProgress model a
              (MoveOperations.moveDownAttempt config model a linesCount 0))
    eqn:Hprogress; [reflexivity |].
  cbv zeta. cbn [Z.ltb Z.compare andb].
  destruct (Z.ltb_spec (MoveOperations.anchorLineNumber a + (0 + 1))
                       (getLineCount model)) as [Hnext|Hlast]; [| reflexivity].
  exfalso.
  unfold MoveOperations.moveDownProgress in Hprogress.
  rewrite Hnorm in Hprogress. cbn [Position.lineNumber] in Hprogress.
  unfold MoveOperations.moveDownAttempt, MoveOperations.down in Hprogress.
  rewrite vertical_lineNumber in Hprogress.
  - apply Z.ltb_ge in Hprogress. lia.
  - exact Hlines.
  - intros affinity q _. rewrite Hnorm. reflexivity.
Qed.

(** X2. On a model without injected text, [moveDown] by at least one line
    never retries: on any fuel that allows one iteration it returns the state
    of its first attempt, the motion from the anchor itself. *)
Theorem moveDown_without_injected_text
    (config : CursorConfiguration) (model : ICursorSimpleModel)
    (cursor : SingleCursorState.t) (inSelectionMode : bool) (linesCount : Z)
    (fuel : nat)
    (Hnormalize : noInjectedText model)
    (Hlines : 1 <= getLineCount model)
    (Hcount : 1 <= linesCount)
    (Hfuel : (1 <= fuel)%nat) :
  let a := MoveOperations.moveDownAnchor config cursor inSelectionMode in
  let r := MoveOperations.down config model
             (MoveOperations.anchorLineNumber a) (MoveOperations.anchorColumn a)
             (MoveOperations.anchorLeftoverVisibleColumns a)
             (MoveOperations.anchorColumnHint a) linesCount true in
  MoveOperations.moveDown fuel config model cursor inSelectionMode linesCount
  = Some (SingleCursorState.move cursor inSelectionMode
            (CursorPosition.lineNumber r) (CursorPosition.column r)
            (CursorPosition.leftoverVisibleColumns r) (CursorPosition.columnHint r)).
Proof.
  cbv zeta. destruct fuel as [|fuel]; [lia |].
  unfold MoveOperations.moveDown. cbv zeta.
  rewrite moveDownLoop_first_attempt by assumption.
  unfold MoveOperations.moveDownAttempt. rewrite Z.add_0_r. reflexivity.
Qed.







End VerticalProperties.

(** ** More of the class: horizontal motion in virtual space *)

Section HorizontalProperties.
Context {strings : Strings} {tabs : AtomicTabMoveOperations}.

(** A step to the left from a column past the line's minimum column, and a
    step to the right from a column before its maximum column, stay on the
    line, with or without sticky tab stops. *)
Lemma left_keeps_line (config : CursorConfiguration) (model : ICursorSimpleModel)
    (p : Position.t) :
  getLineMinColumn model (Position.lineNumber p) < Position.column p ->
  Position.lineNumber (MoveOperations.left config model p) = Position.lineNumber p.
Proof.
  intros Hcolumn.
  unfold MoveOperations.left, MoveOperations.leftPositionAtomicSoftTabs,
         MoveOperations.leftPosition.
  destruct (Z.ltb_spec (getLineMinColumn model (Position.lineNumber p))
                       (Position.column p)); [| lia].
  destruct_tests; unfold Position.delta; cbn [Position.lineNumber]; lia.
Qed.

Lemma right_keeps_line (config : CursorConfiguration) (model : ICursorSimpleModel)
    (p : Position.t) :
  Position.column p < getLineMaxColumn model (Position.lineNumber p) ->
  Position.lineNumber (MoveOperations.right config model p) = Position.lineNumber p.
Proof.
  intros Hcolumn.
  unfold MoveOperations.right, MoveOperations.rightPositionAtomicSoftTabs,
         MoveOperations.rightPosition.
  destruct (Z.ltb_spec (Position.column p)
                       (getLineMaxColumn model (Position.lineNumber p))); [| lia].
  destruct_tests; reflexivity.
Qed.

(** X5. [moveRight] with virtual space enabled and no selection collapse,
    for a column, a leftover, a repeat count and line bounds of small
    magnitude (at most [MAX_SAFE_SMALL_INTEGER], so that every sum the source
    forms is far below 2^53 and exact). From a normalized column before the
    line's maximum column it takes a real step to the right and the leftover
    is 0. From the maximum column on it stays on the normalized position and
    records the excess of the pre-clip column over the clipped column plus
    one, never less than 1, as leftover. The pre-clip column and the
    recorded leftover are below 2^53 in magnitude. *)
Theorem moveRight_virtual_space_step
    (config : CursorConfiguration) (model : ICursorSimpleModel)
    (cursor : SingleCursorState.t) (inSelectionMode : bool) (noOfColumns : Z)
    (Hvirtual : virtualSpace config = true)
    (Hnocollapse :
       SingleCursorState.hasSelection cursor true && negb inSelectionMode = false)
    (Hcolumn : smallInteger (Position.column (SingleCursorState.position cursor)))
    (Hleftover : smallInteger (SingleCursorState.leftoverVisibleColumns cursor))
    (Hcount : smallInteger noOfColumns)
    (Hmin : smallInteger
              (getLineMinColumn model
                 (Position.lineNumber (SingleCursorState.position cursor))))
    (Hmax : smallInteger
              (getLineMaxColumn model
                 (Position.lineNumber (SingleCursorState.position cursor)))) :
  let pos := Position.delta (SingleCursorState.virtualSpacePosition cursor)
                            0 (noOfColumns - 1) in
  let clippedPos := MoveOperations.clipPositionColumn pos model in
  let normalizedPos := normalizePosition model clippedPos PositionAffinity.Right in
  let excess := Position.column pos - Position.column clippedPos in
  let r := MoveOperations.moveRight config model cursor inSelectionMode noOfColumns in
  (Position.column normalizedPos
   < getLineMaxColumn model (Position.lineNumber normalizedPos) ->
     SingleCursorState.position r = MoveOperations.right config model normalizedPos
     /\ SingleCursorState.leftoverVisibleColumns r = 0)
  /\ (getLineMaxColumn model (Position.lineNumber normalizedPos)
      <= Position.column normalizedPos ->
      SingleCursorState.position r = normalizedPos
      /\ SingleCursorState.leftoverVisibleColumns r = Z.max 1 (excess + 1)
      /\ 1 <= SingleCursorState.leftoverVisibleColumns r)
  /\ (Z.abs (Position.column pos) < 2 ^ 53
      /\ Z.abs (SingleCursorState.leftoverVisibleColumns r) < 2 ^ 53).
Proof.
  cbv zeta.
  assert (Hbounds :
            Z.abs (Position.column
                     (Position.delta (SingleCursorState.virtualSpacePosition cursor)
                                     0 (noOfColumns - 1))) <= 3 * 2 ^ 30 + 1
            /\ Z.abs (Position.column
                        (Position.delta (SingleCursorState.virtualSpacePosition cursor)
                                        0 (noOfColumns - 1))
                      - Position.column
                          (MoveOperations.clipPositionColumn
                             (Position.delta
                                (SingleCursorState.virtualSpacePosition cursor)
                                0 (noOfColumns - 1)) model)) <= 4 * 2 ^ 30 + 1).
  { unfold smallInteger, Constants.MAX_SAFE_SMALL_INTEGER in *.
    unfold MoveOperations.clipPositionColumn, MoveOperations.clipRange,
           SingleCursorState.virtualSpacePosition, Position.delta.
    cbn [Position.lineNumber Position.column].
    replace (Position.lineNumber (SingleCursorState.position cursor) + 0 + 0)
      with (Position.lineNumber (SingleCursorState.position cursor)) by lia.
    destruct_comparisons; lia. }
  destruct Hbounds as [Hpos Hexcess].
  unfold MoveOperations.moveRight. rewrite Hvirtual.
  unfold MoveOperations.moveRightWithVirtualSpace. rewrite Hnocollapse.
  cbv zeta.
  set (pos := Position.delta (SingleCursorState.virtualSpacePosition cursor)
                             0 (noOfColumns - 1)) in *.
  set (clippedPos := MoveOperations.clipPositionColumn pos model) in *.
  set (normalizedPos := normalizePosition model clippedPos PositionAffinity.Right).
  assert (Hpow : 4 * 2 ^ 30 + 2 < 2 ^ 53) by (vm_compute; reflexivity).
  split; [| split]; try intros Hbranch;
    destruct (Z.ltb_spec (Position.column normalizedPos)
                (getLineMaxColumn model (Position.lineNumber normalizedPos)));
    try lia;
    rewrite ?move_position, ?move_leftoverVisibleColumns, ?Position_eta;
    repeat split; lia.
Qed.

(** X6. With virtual space enabled and no selection collapse, [moveLeft] and
    [moveRight] never change line: the result is on the line of the
    normalized position, also at the start and at the end of a line. *)
Theorem virtual_space_motion_keeps_line
    (config : CursorConfiguration) (model : ICursorSimpleModel)
    (cursor : SingleCursorState.t) (inSelectionMode : bool) (noOfColumns : Z)
    (Hvirtual : virtualSpace config = true)
    (Hnocollapse :
       SingleCursorState.hasSelection cursor true && negb inSelectionMode = false) :
  let start := SingleCursorState.virtualSpacePosition cursor in
  let normalizedLeft :=
    normalizePosition model
      (MoveOperations.clipPositionColumn
         (Position.delta start 0 (- (noOfColumns - 1))) model)
      PositionAffinity.Left in
  let normalizedRight :=
    normalizePosition model
      (MoveOperations.clipPositionColumn
         (Position.delta start 0 (noOfColumns - 1)) model)
      PositionAffinity.Right in
  Position.lineNumber
    (SingleCursorState.position
       (MoveOperations.moveLeft config model cursor inSelectionMode noOfColumns))
  = Position.lineNumber normalizedLeft
  /\ Position.lineNumber
       (SingleCursorState.position
          (MoveOperations.moveRight config model cursor inSelectionMode noOfColumns))
     = Position.lineNumber normalizedRight.
Proof.
  cbv zeta. unfold MoveOperations.moveLeft, MoveOperations.moveRight.
  rewrite Hvirtual.
  unfold MoveOperations.moveLeftWithVirtualSpace,
         MoveOperations.moveRightWithVirtualSpace.
  rewrite Hnocollapse. cbv zeta.
  split.
  - destruct (Z.ltb_spec 0
                (Z.max 0
                   (Position.column
                      (Position.delta (SingleCursorState.virtualSpacePosition cursor)
                                      0 (- (noOfColumns - 1)))
                    - Position.column
                        (MoveOperations.clipPositionColumn
                           (Position.delta
                              (SingleCursorState.virtualSpacePosition cursor)
                              0 (- (noOfColumns - 1))) model))));
      [rewrite move_position; reflexivity |].
    match goal with
    | |- context [?a <? ?b] => destruct (Z.ltb_spec a b)
    end; rewrite move_position; cbn [Position.lineNumber];
      [apply left_keeps_line; assumption | reflexivity].
  - match goal with
    | |- context [?a <? ?b] => destruct (Z.ltb_spec a b)
    end; rewrite move_position; cbn [Position.lineNumber];
      [apply right_keeps_line; assumption | reflexivity].
Qed.

(** X7. In and out of virtual space. With virtual space enabled, a cursor
    with no selection at the end of a line, carrying a leftover from 0 to
    [MAX_SAFE_SMALL_INTEGER], on a line whose column bounds are of small
    magnitude (so that every sum the source forms is far below 2^53 and
    exact), goes one column further into virtual space with [moveRight]
    (same position, leftover plus one) and comes back with [moveLeft] (same
    position, the leftover it had), when normalization leaves the end of
    that line in place. *)
Theorem virtual_space_moveRight_then_moveLeft
    (config : CursorConfiguration) (model : ICursorSimpleModel)
    (cursor : SingleCursorState.t)
    (Hvirtual : virtualSpace config = true)
    (Hselection : SingleCursorState.hasSelection cursor true = false)
    (Hend : Position.column (SingleCursorState.position cursor)
            = getLineMaxColumn model
                (Position.lineNumber (SingleCursorState.position cursor)))
    (Hline : getLineMinColumn model
               (Position.lineNumber (SingleCursorState.position cursor))
             <= getLineMaxColumn model
                  (Position.lineNumber (SingleCursorState.position cursor)))
    (Hleftover : 0 <= SingleCursorState.leftoverVisibleColumns cursor
                 <= Constants.MAX_SAFE_SMALL_INTEGER)
    (Hmin : smallInteger
              (getLineMinColumn model
                 (Position.lineNumber (SingleCursorState.position cursor))))
    (Hmax : smallInteger
              (getLineMaxColumn model
                 (Position.lineNumber (SingleCursorState.position cursor))))
    (Hnormalize : forall affinity : PositionAffinity.t,
        normalizePosition model (SingleCursorState.position cursor) affinity
        = SingleCursorState.position cursor) :
  let r := MoveOperations.moveRight config model cursor false 1 in
  let b := MoveOperations.moveLeft config model r false 1 in
  SingleCursorState.position r = SingleCursorState.position cursor
  /\ SingleCursorState.leftoverVisibleColumns r
     = SingleCursorState.leftoverVisibleColumns cursor + 1
  /\ SingleCursorState.position b = SingleCursorState.position cursor
  /\ SingleCursorState.leftoverVisibleColumns b
     = SingleCursorState.leftoverVisibleColumns cursor.
Proof.
  cbv zeta.
  destruct cursor as [selStart kind ssLeftover [l c] leftover hint].
  cbn [SingleCursorState.position SingleCursorState.leftoverVisibleColumns
       Position.lineNumber Position.column] in *.
  subst c.
  assert (Hclip : forall extra : Z, 0 <= extra ->
            MoveOperations.clipPositionColumn
              (Position.mk l (getLineMaxColumn model l + extra)) model
            = Position.mk l (getLineMaxColumn model l)).
  { intros extra Hextra. unfold MoveOperations.clipPositionColumn,
      MoveOperations.clipRange. cbn [Position.lineNumber Position.column].
    destruct (Z.ltb_spec (getLineMaxColumn model l + extra) (getLineMinColumn model l));
      [lia |].
    destruct (Z.ltb_spec (getLineMaxColumn model l)
                         (getLineMaxColumn model l + extra));
      [reflexivity | f_equal; lia]. }
  assert (Hright :
            MoveOperations.moveRight config model
              (SingleCursorState.mk selStart kind ssLeftover
                 (Position.mk l (getLineMaxColumn model l)) leftover hint) false 1
            = SingleCursorState.move
                (SingleCursorState.mk selStart kind ssLeftover
                   (Position.mk l (getLineMaxColumn model l)) leftover hint)
                false l (getLineMaxColumn model l) (leftover + 1) None).
  { unfold MoveOperations.moveRight. rewrite Hvirtual.
    unfold MoveOperations.moveRightWithVirtualSpace. rewrite Hselection.
    cbn [andb]. cbv zeta.
    unfold SingleCursorState.virtualSpacePosition, Position.delta.
    cbn [SingleCursorState.position SingleCursorState.leftoverVisibleColumns
         Position.lineNumber Position.column].
    replace (l + 0 + 0) with l by lia.
    replace (getLineMaxColumn model l + leftover + (1 - 1))
      with (getLineMaxColumn model l + leftover) by lia.
    rewrite Hclip by lia. rewrite Hnormalize.
    cbn [Position.lineNumber Position.column].
    rewrite Z.ltb_irrefl. f_equal. lia. }
  rewrite Hright.
  rewrite move_position, move_leftoverVisibleColumns.
  split; [reflexivity | split; [reflexivity |]].
  unfold MoveOperations.moveLeft. rewrite Hvirtual.
  unfold MoveOperations.moveLeftWithVirtualSpace.
  rewrite hasSelection_move_collapsed. cbn [andb]. cbv zeta.
  unfold SingleCursorState.virtualSpacePosition, Position.delta.
  rewrite !move_position, !move_leftoverVisibleColumns.
  cbn [Position.lineNumber Position.column].
  replace (l + 0 + 0) with l by lia.
  replace (getLineMaxColumn model l + (leftover + 1) + - (1 - 1))
    with (getLineMaxColumn model l + (leftover + 1)) by lia.
  rewrite Hclip by lia. rewrite Hnormalize.
  cbn [Position.lineNumber Position.column].
  destruct (Z.ltb_spec 0
              (Z.max 0 (getLineMaxColumn model l + (leftover + 1)
                        - getLineMaxColumn model l))); [| lia].
  rewrite move_position, move_leftoverVisibleColumns.
  split; [reflexivity | lia].
Qed.

End HorizontalProperties.

(** ** More of the class: line starts, blank lines, buffer edges *)

Section LineAndBufferProperties.
Context {strings : Strings} {tabs : AtomicTabMoveOperations}
        {cursorColumns : CursorColumns}.

(** The column [moveToBeginningOfLine] treats as the start of the text of a
    line: the first non-whitespace column, or the minimum column on a blank
    line. *)
Lemma moveToBeginningOfLine_position
    (config : CursorConfiguration) (model : ICursorSimpleModel)
    (cursor : SingleCursorState.t) (inSelectionMode : bool) :
  let l := Position.lineNumber (SingleCursorState.position cursor) in
  let home := if getLineFirstNonWhitespaceColumn model l =? 0
              then getLineMinColumn model l
              else getLineFirstNonWhitespaceColumn model l in
  SingleCursorState.position
    (MoveOperations.moveToBeginningOfLine config model cursor inSelectionMode)
  = Position.mk l
      (if Position.column (SingleCursorState.position cursor) =? home
       then getLineMinColumn model l else home).
Proof.
  cbv zeta. unfold MoveOperations.moveToBeginningOfLine. cbv zeta.
  apply move_position.
Qed.

(** Switching between two columns: the third switch lands where the first
    one did. *)
Lemma toggle_thrice (m h c : Z) :
  let toggle := fun x : Z => if x =? h then m else h in
  toggle (toggle (toggle c)) = toggle c.
Proof.
  cbv beta zeta.
  destruct (Z.eqb_spec c h) as [Hc|Hc]; cbv iota.
  - destruct (Z.eqb_spec m h) as [Hm|Hm]; cbv iota.
    + rewrite Hm, Z.eqb_refl. reflexivity.
    + rewrite Z.eqb_refl. reflexivity.
  - rewrite Z.eqb_refl.
    destruct (Z.eqb_spec m h) as [Hm|Hm]; [exact Hm | reflexivity].
Qed.

(** X8. [moveToBeginningOfLine] toggles. It stays on the line; from the
    start of the text it goes to the line's minimum column and from any other
    column to the start of the text; from any other column the second press
    therefore lands on the minimum column; and the third press lands where
    the first one did. *)
Theorem moveToBeginningOfLine_toggles
    (config : CursorConfiguration) (model : ICursorSimpleModel)
    (cursor : SingleCursorState.t) (inSelectionMode : bool) :
  let press := fun c : SingleCursorState.t =>
                 MoveOperations.moveToBeginningOfLine config model c inSelectionMode in
  let l := Position.lineNumber (SingleCursorState.position cursor) in
  let column := Position.column (SingleCursorState.position cursor) in
  let minColumn := getLineMinColumn model l in
  let home := if getLineFirstNonWhitespaceColumn model l =? 0
              then minColumn
              else getLineFirstNonWhitespaceColumn model l in
  SingleCursorState.position (press cursor)
  = Position.mk l (if column =? home then minColumn else home)
  /\ (column <> home ->
      SingleCursorState.position (press (press cursor)) = Position.mk l minColumn)
  /\ SingleCursorState.position (press (press (press cursor)))
     = SingleCursorState.position (press cursor).
Proof.
  cbv beta zeta.
  repeat (rewrite moveToBeginningOfLine_position; cbv beta zeta).
  cbn [Position.lineNumber Position.column].
  set (l := Position.lineNumber (SingleCursorState.position cursor)).
  set (column := Position.column (SingleCursorState.position cursor)).
  set (minColumn := getLineMinColumn model l).
  set (home := if getLineFirstNonWhitespaceColumn model l =? 0
               then minColumn else getLineFirstNonWhitespaceColumn model l).
  split; [reflexivity | split].
  - intros Hcolumn.
    destruct (Z.eqb_spec column home); [contradiction |].
    rewrite Z.eqb_refl. reflexivity.
  - f_equal. apply (toggle_thrice minColumn home column).
Qed.

(** X9. In a buffer with no blank line, from any of its lines,
    [moveToPrevBlankLine] lands on line 1 and [moveToNextBlankLine] on the
    last line, each at the line's minimum column. *)
Theorem blank_line_motions_without_blank_lines
    (config : CursorConfiguration) (model : ICursorSimpleModel)
    (cursor : SingleCursorState.t) (inSelectionMode : bool)
    (Hstart : 1 <= Position.lineNumber (SingleCursorState.position cursor)
              <= getLineCount model)
    (Hnoblank : forall l : Z,
        1 <= l <= getLineCount model ->
        getLineFirstNonWhitespaceColumn model l <> 0) :
  SingleCursorState.position
    (MoveOperations.moveToPrevBlankLine config model cursor inSelectionMode)
  = Position.mk 1 (getLineMinColumn model 1)
  /\ SingleCursorState.position
       (MoveOperations.moveToNextBlankLine config model cursor inSelectionMode)
     = Position.mk (getLineCount model) (getLineMinColumn model (getLineCount model)).
Proof.
  assert (Hblank : forall l : Z, 1 <= l <= getLineCount model ->
                                 MoveOperations._isBlankLine model l = false).
  { intros l Hl. unfold MoveOperations._isBlankLine.
    destruct (Z.eqb_spec (getLineFirstNonWhitespaceColumn model l) 0);
      [exfalso; apply (Hnoblank l Hl); assumption | reflexivity]. }
  set (start := Position.lineNumber (SingleCursorState.position cursor)) in *.
  unfold MoveOperations.moveToPrevBlankLine, MoveOperations.moveToNextBlankLine.
  cbv zeta. rewrite !move_position. fold start.
  split.
  - destruct (scanUp_spec model true start) as (Hle1 & Hge1 & Hrun1 & _).
    assert (Hm : MoveOperations.scanUp model true start = start).
    { destruct (Z.eq_dec (MoveOperations.scanUp model true start) start) as [|Hne];
        [assumption |].
      specialize (Hrun1 start ltac:(lia)). rewrite Hblank in Hrun1 by lia.
      discriminate Hrun1. }
    rewrite Hm.
    destruct (scanUp_spec model false start) as (Hle2 & Hge2 & _ & Hstop2).
    assert (Hr : MoveOperations.scanUp model false start = 1).
    { destruct Hstop2 as [Hone|Hfound]; [lia |].
      rewrite Hblank in Hfound by lia. discriminate Hfound. }
    rewrite Hr. reflexivity.
  - destruct (scanDown_spec model true (getLineCount model) start)
      as (Hle1 & Hge1 & Hrun1 & _).
    assert (Hm : MoveOperations.scanDown model true (getLineCount model) start = start).
    { destruct (Z.eq_dec (MoveOperations.scanDown model true (getLineCount model) start)
                         start) as [|Hne]; [assumption |].
      specialize (Hrun1 start ltac:(lia)). rewrite Hblank in Hrun1 by lia.
      discriminate Hrun1. }
    rewrite Hm.
    destruct (scanDown_spec model false (getLineCount model) start)
      as (Hle2 & Hge2 & _ & Hstop2).
    assert (Hr : MoveOperations.scanDown model false (getLineCount model) start
                 = getLineCount model).
    { destruct Hstop2 as [Hlast|Hfound]; [lia |].
      rewrite Hblank in Hfound by lia. discriminate Hfound. }
    rewrite Hr. reflexivity.
Qed.

(** X10. The buffer edges are fixed points of the horizontal steps. Without
    virtual space or sticky tab stops, on a model that normalizes in-line
    positions to themselves, [moveRight] after [moveToEndOfBuffer] stays on
    the end of the last line, and [moveLeft] after [moveToBeginningOfBuffer]
    stays on (1,1) when that is the start of line 1. *)
Theorem buffer_edges_stop_horizontal_motion
    (config : CursorConfiguration) (model : ICursorSimpleModel)
    (cursor : SingleCursorState.t) (inSelectionMode : bool)
    (Hvirtual : virtualSpace config = false)
    (Hsticky : stickyTabStops config = false)
    (Hnormalize : normalizesInPlace model)
    (Hlines : 1 <= getLineCount model)
    (Hfirst : getLineMinColumn model 1 = 1 /\ 1 <= getLineMaxColumn model 1)
    (Hlast : getLineMinColumn model (getLineCount model)
             <= getLineMaxColumn model (getLineCount model)) :
  SingleCursorState.position
    (MoveOperations.moveRight config model
       (MoveOperations.moveToEndOfBuffer config model cursor false) false 1)
  = Position.mk (getLineCount model) (getLineMaxColumn model (getLineCount model))
  /\ SingleCursorState.position
       (MoveOperations.moveLeft config model
          (MoveOperations.moveToBeginningOfBuffer config model cursor false) false 1)
     = Position.mk 1 1.
Proof.
  unfold MoveOperations.moveToEndOfBuffer, MoveOperations.moveToBeginningOfBuffer.
  cbv zeta. split.
  - rewrite moveRight_plain; try assumption.
    + rewrite move_position. cbn [Position.lineNumber Position.column].
      unfold MoveOperations.rightPosition.
      rewrite !Z.ltb_irrefl. reflexivity.
    + apply hasSelection_move_collapsed.
    + rewrite move_position. unfold validPosition.
      cbn [Position.lineNumber Position.column]. lia.
  - rewrite moveLeft_plain; try assumption.
    + rewrite move_position. unfold MoveOperations.leftPosition.
      cbn [Position.lineNumber Position.column].
      destruct Hfirst as [Hmin _]. rewrite Hmin, !Z.ltb_irrefl. reflexivity.
    + apply hasSelection_move_collapsed.
    + rewrite move_position. unfold validPosition.
      cbn [Position.lineNumber Position.column]. lia.
Qed.

(** X11. The two revisions without virtual space. With virtual space
    disabled, [moveLeft] and [moveRight] of the earlier revision return the
    same state as the ones that replace them, on every input, and so do its
    [moveUp] and [moveDown] whenever the call does not collapse a selection. *)
Theorem earlier_revision_without_virtual_space
    (config : CursorConfiguration) (model : ICursorSimpleModel)
    (cursor : SingleCursorState.t) (inSelectionMode : bool)
    (noOfColumns linesCount : Z) (fuel : nat)
    (Hvirtual : virtualSpace config = false) :
  EarlierMoveOperations.moveLeft config model cursor inSelectionMode noOfColumns
  = MoveOperations.moveLeft config model cursor inSelectionMode noOfColumns
  /\ EarlierMoveOperations.moveRight config model cursor inSelectionMode noOfColumns
     = MoveOperations.moveRight config model cursor inSelectionMode noOfColumns
  /\ (SingleCursorState.hasSelection cursor false && negb inSelectionMode = false ->
      EarlierMoveOperations.moveUp config model cursor inSelectionMode linesCount
      = MoveOperations.moveUp config model cursor inSelectionMode linesCount
      /\ EarlierMoveOperations.moveDown fuel config model cursor inSelectionMode
           linesCount
         = MoveOperations.moveDown fuel config model cursor inSelectionMode
             linesCount).
Proof.
  split; [| split].
  - unfold EarlierMoveOperations.moveLeft, MoveOperations.moveLeft,
           MoveOperations.moveLeftWithoutVirtualSapce.
    rewrite Hvirtual. cbv zeta. rewrite Z.add_0_r.
    destruct (SingleCursorState.hasSelection cursor false); destruct inSelectionMode;
      reflexivity.
  - unfold EarlierMoveOperations.moveRight, MoveOperations.moveRight,
           MoveOperations.moveRightWithoutVirtualSpace.
    rewrite Hvirtual. cbv zeta. rewrite Z.add_0_r.
    destruct (SingleCursorState.hasSelection cursor false); destruct inSelectionMode;
      reflexivity.
  - intros Hnocollapse.
    unfold EarlierMoveOperations.moveUp, EarlierMoveOperations.moveDown,
           MoveOperations.moveUp, MoveOperations.moveDown,
           EarlierMoveOperations.moveUpAnchor, EarlierMoveOperations.moveDownAnchor,
           MoveOperations.moveUpAnchor, MoveOperations.moveDownAnchor.
    rewrite Hvirtual, Hnocollapse. split; reflexivity.
Qed.

End LineAndBufferProperties.

(** ** More of the class: clipping *)

(** X13. On a line whose minimum column is at most its maximum column,
    [clipPositionColumn] keeps the line and returns a column inside the
    line: the column itself when it is inside, the minimum column when it is
    before, the maximum column when it is past; clipping twice is clipping
    once. *)
Theorem clipPositionColumn_bounds
    (model : ICursorSimpleModel) (p : Position.t)
    (Hline : getLineMinColumn model (Position.lineNumber p)
             <= getLineMaxColumn model (Position.lineNumber p)) :
  let q := MoveOperations.clipPositionColumn p model in
  let minColumn := getLineMinColumn model (Position.lineNumber p) in
  let maxColumn := getLineMaxColumn model (Position.lineNumber p) in
  Position.lineNumber q = Position.lineNumber p
  /\ minColumn <= Position.column q <= maxColumn
  /\ (minColumn <= Position.column p <= maxColumn -> q = p)
  /\ (Position.column p < minColumn -> Position.column q = minColumn)
  /\ (maxColumn < Position.column p -> Position.column q = maxColumn)
  /\ MoveOperations.clipPositionColumn q model = q.
Proof.
  cbv zeta.
  assert (Hinside :
            getLineMinColumn model (Position.lineNumber p)
            <= Position.column (MoveOperations.clipPositionColumn p model)
            <= getLineMaxColumn model (Position.lineNumber p)).
  { unfold MoveOperations.clipPositionColumn, MoveOperations.clipRange.
    cbn [Position.column]. destruct_comparisons; lia. }
  split; [reflexivity | split; [exact Hinside |]].
  split; [intros Hp; apply clipPositionColumn_inside; exact Hp |].
  split; [| split].
  - intros Hbefore.
    unfold MoveOperations.clipPositionColumn, MoveOperations.clipRange.
    cbn [Position.column]. destruct_comparisons; lia.
  - intros Hpast.
    unfold MoveOperations.clipPositionColumn, MoveOperations.clipRange.
    cbn [Position.column]. destruct_comparisons; lia.
  - apply clipPositionColumn_inside. exact Hinside.
Qed.

(** ** The further properties on the sample model *)

(** X1 on the one-line buffer "abc": five lines down is line 1. *)
Lemma vertical_target_line_witness :
  CursorPosition.lineNumber
    (@MoveOperations.vertical Sample.plainColumns (Sample.config false false)
       (Sample.textModel ["abc"%string]) 1 2 0 None 6 true
       (Some PositionAffinity.RightOfInjectedText))
  = 1.
Proof.
  refine (proj1 (@vertical_target_line Sample.plainColumns (Sample.config false false)
                   (Sample.textModel ["abc"%string]) 1 2 0 None 6 true
                   (Some PositionAffinity.RightOfInjectedText) _ _)).
  - vm_compute. discriminate.
  - intros affinity q _. reflexivity.
Defined.

(** X2 on two lines: one iteration is enough. *)
Lemma moveDown_without_injected_text_witness :
  @MoveOperations.moveDown Sample.plainColumns 1 (Sample.config false false)
    (Sample.textModel ["ab"; "cd"]%string) (Sample.cursorAt 1 2) false 1
  = Some (SingleCursorState.mk (Range.mk 2 2 2 2) SelectionStartKind.Simple 0
            (Position.mk 2 2) 0 (Some 1)).
Proof.
  rewrite (@moveDown_without_injected_text Sample.plainColumns
             (Sample.config false false) (Sample.textModel ["ab"; "cd"]%string)
             (Sample.cursorAt 1 2) false 1 1%nat).
  - vm_compute. reflexivity.
  - intros q affinity. reflexivity.
  - vm_compute. discriminate.
  - lia.
  - lia.
Defined.



(** X5 at the end of the line "abc": the cursor stays on column 4 and enters
    virtual space by one column. *)
Lemma moveRight_virtual_space_step_witness :
  let r := @MoveOperations.moveRight Sample.unitStrings Sample.spaceStops
             (Sample.config false true) (Sample.textModel ["abc"; "d"]%string)
             (Sample.cursorAt 1 4) false 1 in
  SingleCursorState.position r = Position.mk 1 4
  /\ SingleCursorState.leftoverVisibleColumns r = 1.
Proof.
  cbv zeta.
  destruct (@moveRight_virtual_space_step Sample.unitStrings Sample.spaceStops
              (Sample.config false true)
              (Sample.textModel ["abc"; "d"]%string)
              (Sample.cursorAt 1 4) false 1 eq_refl eq_refl)
    as (_ & Hend & _).
  - unfold smallInteger. vm_compute. split; discriminate.
  - unfold smallInteger. vm_compute. split; discriminate.
  - unfold smallInteger. vm_compute. split; discriminate.
  - unfold smallInteger. vm_compute. split; discriminate.
  - unfold smallInteger. vm_compute. split; discriminate.
  - destruct Hend as (Hposition & Hleftover & _).
    + vm_compute. discriminate.
    + split; [exact Hposition | exact Hleftover].
Defined.

(** X6 at the end of the first of two lines and at the start of the second:
    neither motion changes line. *)
Lemma virtual_space_motion_keeps_line_witness :
  let config := Sample.config false true in
  let model := Sample.textModel ["abc"; "d"]%string in
  Position.lineNumber
    (SingleCursorState.position
       (@MoveOperations.moveRight Sample.unitStrings Sample.spaceStops config model
          (Sample.cursorAt 1 4) false 1)) = 1
  /\ Position.lineNumber
       (SingleCursorState.position
          (@MoveOperations.moveLeft Sample.unitStrings Sample.spaceStops config model
             (Sample.cursorAt 2 1) false 1)) = 2.
Proof.
  cbv zeta. split.
  - exact (proj2 (@virtual_space_motion_keeps_line Sample.unitStrings Sample.spaceStops
                    (Sample.config false true) (Sample.textModel ["abc"; "d"]%string)
                    (Sample.cursorAt 1 4) false 1 eq_refl eq_refl)).
  - exact (proj1 (@virtual_space_motion_keeps_line Sample.unitStrings Sample.spaceStops
                    (Sample.config false true) (Sample.textModel ["abc"; "d"]%string)
                    (Sample.cursorAt 2 1) false 1 eq_refl eq_refl)).
Defined.

(** X7 at the end of the line "abc" with two leftover columns. *)
Lemma virtual_space_moveRight_then_moveLeft_witness :
  let config := Sample.config false true in
  let model := Sample.textModel ["abc"%string] in
  let cursor :=
    SingleCursorState.mk (Range.mk 1 4 1 4) SelectionStartKind.Simple 2
                         (Position.mk 1 4) 2 None in
  let r := @MoveOperations.moveRight Sample.unitStrings Sample.spaceStops config model
             cursor false 1 in
  SingleCursorState.leftoverVisibleColumns r = 3
  /\ SingleCursorState.leftoverVisibleColumns
       (@MoveOperations.moveLeft Sample.unitStrings Sample.spaceStops config model
          r false 1) = 2.
Proof.
  cbv zeta.
  destruct (@virtual_space_moveRight_then_moveLeft Sample.unitStrings Sample.spaceStops
              (Sample.config false true) (Sample.textModel ["abc"%string])
              (SingleCursorState.mk (Range.mk 1 4 1 4) SelectionStartKind.Simple 2
                 (Position.mk 1 4) 2 None))
    as (_ & Hright & _ & Hleft).
  - reflexivity.
  - reflexivity.
  - reflexivity.
  - vm_compute. discriminate.
  - vm_compute. split; discriminate.
  - unfold smallInteger. vm_compute. split; discriminate.
  - unfold smallInteger. vm_compute. split; discriminate.
  - intros affinity. reflexivity.
  - split; [exact Hright | exact Hleft].
Defined.

(** The line "  foo" from column 6: the first press goes to column 3 and the
    second to column 1. *)
Example moveToBeginningOfLine_two_presses :
  let config := Sample.config false false in
  let model := Sample.textModel ["  foo"%string] in
  let once := MoveOperations.moveToBeginningOfLine config model
                (Sample.cursorAt 1 6) false in
  SingleCursorState.position once = Position.mk 1 3
  /\ SingleCursorState.position
       (MoveOperations.moveToBeginningOfLine config model once false)
     = Position.mk 1 1.
Proof. cbv zeta. split; vm_compute; reflexivity. Qed.

(** X9 on three lines of text, from the middle one. *)
Lemma blank_line_motions_without_blank_lines_witness :
  let config := Sample.config false false in
  let model := Sample.textModel ["a"; "b"; "c"]%string in
  SingleCursorState.position
    (MoveOperations.moveToPrevBlankLine config model (Sample.cursorAt 2 1) false)
  = Position.mk 1 1
  /\ SingleCursorState.position
       (MoveOperations.moveToNextBlankLine config model (Sample.cursorAt 2 1) false)
     = Position.mk 3 1.
Proof.
  cbv zeta.
  refine (@blank_line_motions_without_blank_lines (Sample.config false false)
            (Sample.textModel ["a"; "b"; "c"]%string) (Sample.cursorAt 2 1) false _ _).
  - vm_compute. split; discriminate.
  - intros l Hl. cbn in Hl.
    assert (Hcases : l = 1 \/ l = 2 \/ l = 3) by lia.
    destruct Hcases as [Hl1 | [Hl2 | Hl3]]; subst l; vm_compute; discriminate.
Defined.

(** X10 on the one-line buffer "ab". *)
Lemma buffer_edges_stop_horizontal_motion_witness :
  let config := Sample.config false false in
  let model := Sample.textModel ["ab"%string] in
  SingleCursorState.position
    (@MoveOperations.moveRight Sample.unitStrings Sample.spaceStops config model
       (MoveOperations.moveToEndOfBuffer config model (Sample.cursorAt 1 1) false)
       false 1)
  = Position.mk 1 3
  /\ SingleCursorState.position
       (@MoveOperations.moveLeft Sample.unitStrings Sample.spaceStops config model
          (MoveOperations.moveToBeginningOfBuffer config model (Sample.cursorAt 1 3) false)
          false 1)
     = Position.mk 1 1.
Proof.
  cbv zeta.
  pose proof (@buffer_edges_stop_horizontal_motion Sample.unitStrings Sample.spaceStops
                (Sample.config false false) (Sample.textModel ["ab"%string]))
    as Hedges.
  split.
  - refine (proj1 (Hedges (Sample.cursorAt 1 1) false eq_refl eq_refl _ _ _ _)).
    + intros q affinity _. reflexivity.
    + vm_compute. discriminate.
    + vm_compute. split; [reflexivity | discriminate].
    + vm_compute. discriminate.
  - refine (proj2 (Hedges (Sample.cursorAt 1 3) false eq_refl eq_refl _ _ _ _)).
    + intros q affinity _. reflexivity.
    + vm_compute. discriminate.
    + vm_compute. split; [reflexivity | discriminate].
    + vm_compute. discriminate.
Defined.

(** X11 on a selection of the line "abcdef": both revisions collapse it to
    its start. *)
Lemma earlier_revision_without_virtual_space_witness :
  let config := Sample.config false false in
  let model := Sample.textModel ["abcdef"%string] in
  let cursor := Sample.cursorSelecting 1 2 1 5 in
  @EarlierMoveOperations.moveLeft Sample.unitStrings Sample.spaceStops config model
    cursor false 1
  = @MoveOperations.moveLeft Sample.unitStrings Sample.spaceStops config model
      cursor false 1.
Proof.
  cbv zeta.
  exact (proj1 (@earlier_revision_without_virtual_space Sample.unitStrings
                  Sample.spaceStops Sample.plainColumns (Sample.config false false)
                  (Sample.textModel ["abcdef"%string])
                  (Sample.cursorSelecting 1 2 1 5) false 1 1 1%nat eq_refl)).
Defined.

(** With virtual space enabled the two revisions differ: from the end of a
    line, while extending a selection, the earlier [moveRight] returns a
    collapsed state and the later one keeps the selection start. *)
Example earlier_revision_with_virtual_space :
  let config := Sample.config false true in
  let model := Sample.textModel ["abc"%string] in
  let cursor := Sample.cursorSelecting 1 2 1 4 in
  SingleCursorState.selectionStart
    (@EarlierMoveOperations.moveRight Sample.unitStrings Sample.spaceStops config model
       cursor true 1) = Range.mk 1 4 1 4
  /\ SingleCursorState.selectionStart
       (@MoveOperations.moveRight Sample.unitStrings Sample.spaceStops config model
          cursor true 1) = Range.mk 1 2 1 2.
Proof. cbv zeta. split; vm_compute; reflexivity. Qed.

(** X12 on the one-line buffer "abc", from column 2: a line above the buffer
    gives column 1, a line below it gives column 4, and without the edge
    move the column stays 2. *)
Lemma vertical_clamps_target_line_witness :
  let config := Sample.config false false in
  let model := Sample.textModel ["abc"%string] in
  CursorPosition.column
    (@MoveOperations.vertical Sample.plainColumns config model 1 2 0 None 0 true None) = 1
  /\ CursorPosition.column
       (@MoveOperations.vertical Sample.plainColumns config model 1 2 0 None 2 true None) = 4
  /\ CursorPosition.column
       (@MoveOperations.vertical Sample.plainColumns config model 1 2 0 None 2 false None) = 2.
Proof.
  cbv zeta.
  pose proof (@vertical_clamps_target_line Sample.plainColumns
                (Sample.config false false) (Sample.textModel ["abc"%string])
                1 2 0 None) as Hclamp.
  split; [| split].
  - pose proof (Hclamp 0 true eq_refl) as H. cbv zeta in H.
    destruct H as (Habove & _). destruct Habove as (_ & Hcolumn); [lia |].
    exact Hcolumn.
  - pose proof (Hclamp 2 true eq_refl) as H. cbv zeta in H.
    destruct H as (_ & Hbelow).
    destruct Hbelow as (_ & Hcolumn); [lia | vm_compute; reflexivity |].
    exact Hcolumn.
  - pose proof (Hclamp 2 false eq_refl) as H. cbv zeta in H.
    destruct H as (_ & Hbelow).
    destruct Hbelow as (_ & Hcolumn); [lia | vm_compute; reflexivity |].
    exact Hcolumn.
Defined.

(** X13 on the line "abc": column 9 is clipped to column 4 and column -2 to
    column 1. *)
Lemma clipPositionColumn_bounds_witness :
  let model := Sample.textModel ["abc"%string] in
  Position.column (MoveOperations.clipPositionColumn (Position.mk 1 9) model) = 4
  /\ Position.column (MoveOperations.clipPositionColumn (Position.mk 1 (-2)) model) = 1.
Proof.
  cbv zeta.
  pose proof (@clipPositionColumn_bounds (Sample.textModel ["abc"%string])) as Hclip.
  split.
  - pose proof (Hclip (Position.mk 1 9)) as H. cbv zeta in H.
    destruct H as (_ & _ & _ & _ & Hpast & _).
    + vm_compute. discriminate.
    + apply Hpast. vm_compute. reflexivity.
  - pose proof (Hclip (Position.mk 1 (-2))) as H. cbv zeta in H.
    destruct H as (_ & _ & _ & Hbefore & _).
    + vm_compute. discriminate.
    + apply Hbefore. vm_compute. reflexivity.
Defined.
